(** * Coin counter of a pool table: the drawer state machine of the ESP8266 sketch

    The sketch keeps its state machine in global variables ([TIMEOUT],
    [openTime], [state], [coinCount]) and in the callback attached to one
    [Ticker].  Three handlers, [process_DRAWER_CLOSED_state],
    [process_DRAWER_OPEN_state] and [process_OPEN_FOR_TOO_LONG_state], call
    each other on a transition; the handler that is attached to the ticker
    is the one run every 100 ms.

    The embedding below follows the sketch line by line:
    - [int] is a [Z] with the two's complement wrap-around of [coinCount++]
      written out;
    - [float openTime] is an IEEE 754 binary32 value ([spec_float] with
      precision 24), [openTime += 0.1] is the binary64 addition followed by
      the conversion back to binary32, as C++ prescribes for a [float]
      variable and a [double] literal;
    - the globals and the ticker are one record threaded through the
      handlers; the MQTT publishes are logged in order in [published];
    - the mutual recursion of the handlers is bounded by a fuel argument,
      and shown below never to need more than three calls.

    [Serial] output is debug logging and is left out.

    Besides the state machine the file embeds the start-up of the sketch
    ([connectToWifi], [MQTT_connect], [setup], in [Startup], the answers of
    the Wi-Fi and MQTT libraries being inputs) and the [loop] of the first
    sketch of the repository (in [Primeiros]). *)

From Stdlib Require Import ZArith List Bool String Lia.
From Stdlib Require Import SpecFloat.
Import ListNotations.
Open Scope Z_scope.

(** ** Machine integers and floating point numbers *)

Module Num.

Definition INT_MIN : Z := - 2 ^ 31.
Definition INT_MAX : Z := 2 ^ 31 - 1.

Definition int_range (z : Z) : Prop := INT_MIN <= z <= INT_MAX.

(** The value a 32 bit two's complement register holds for [z]. *)
Definition int_wrap (z : Z) : Z := (z + 2 ^ 31) mod 2 ^ 32 - 2 ^ 31.

(** [x++] on an [int]. *)
Definition int_incr (z : Z) : Z := int_wrap (z + 1).

(** binary32 ([float]) and binary64 ([double]) formats. *)
Definition f32_prec : Z := 24.
Definition f32_emax : Z := 128.
Definition f64_prec : Z := 53.
Definition f64_emax : Z := 1024.

(** Rounding of a value of one format to the format [prec], [emax]
    (to nearest, ties to even). *)
Definition round_to (prec emax : Z) (x : spec_float) : spec_float :=
  match x with
  | S754_finite s m e => binary_normalize prec emax (cond_Zopp s (Zpos m)) e s
  | _ => x
  end.

Definition float_of_double : spec_float -> spec_float := round_to f32_prec f32_emax.
Definition double_of_float : spec_float -> spec_float := round_to f64_prec f64_emax.

(** Conversion of an [int] to [float] and to [double]. *)
Definition float_of_int (z : Z) : spec_float := binary_normalize f32_prec f32_emax z 0 false.
Definition double_of_int (z : Z) : spec_float := binary_normalize f64_prec f64_emax z 0 false.

(** The [double] nearest to the decimal literal [n / 10]. *)
Definition double_tenths (n : Z) : spec_float :=
  SFdiv f64_prec f64_emax (double_of_int n) (double_of_int 10).

Definition float_zero : spec_float := S754_zero false.

(** [x += d] for a [float x] and a [double d]. *)
Definition float_add_double (x d : spec_float) : spec_float :=
  float_of_double (SFadd f64_prec f64_emax (double_of_float x) d).

(** [x >= y] on two [float]s; false when one of them is a NaN. *)
Definition float_ge (x y : spec_float) : bool :=
  match SFcompare x y with
  | Some Gt | Some Eq => true
  | _ => false
  end.

End Num.
Import Num.

#[global] Arguments float_add_double : simpl never.
#[global] Arguments float_ge : simpl never.
#[global] Arguments float_of_int : simpl never.
#[global] Arguments int_incr : simpl never.

(** ** Data of the sketch *)

(** [enum State]. *)
Inductive State : Type :=
| DRAWER_CLOSED
| DRAWER_OPEN
| OPEN_FOR_TOO_LONG.

(** Result of [digitalRead(2)].  The pin is pulled up: it reads [HIGH]
    when the lever blocks the light, [LOW] when the light reaches the LDR. *)
Inductive Level : Type :=
| LOW
| HIGH.

Abbreviation LIGHT_ON := LOW (only parsing).
Abbreviation LIGHT_BLOCKED := HIGH (only parsing).

(** The three functions the sketch attaches to the ticker. *)
Inductive Callback : Type :=
| cb_DRAWER_CLOSED
| cb_DRAWER_OPEN
| cb_OPEN_FOR_TOO_LONG.

(** One MQTT publish: [coinCounterPublisher.publish(n)] on the coin counter
    feed or [reporterPublisher.publish(msg)] on the reporter feed. *)
Inductive Publish : Type :=
| coinCounterPublisher (n : Z)
| reporterPublisher (msg : string).

Definition MSG_TOO_LONG : string := "Pool table is open for too long".
Definition MSG_FINALLY_CLOSED : string := "Pool table drawer was finally closed".
Definition MSG_KEEPS_OPEN : string := "Pool table keeps open for too long".

(** The constants the sketch writes as literals: the value [TIMEOUT] starts
    with and is reset to, the value it takes once the drawer is stuck, and
    the amount added to [openTime] by a handler call (a [double]). *)
Record Config : Type := mkConfig {
  TIMEOUT_LONG : Z;
  TIMEOUT_SHORT : Z;
  OPEN_STEP : spec_float
}.

(** The sketch as written: [TIMEOUT = 18], [TIMEOUT = 3], [openTime += 0.1]. *)
Definition sketch : Config :=
  {| TIMEOUT_LONG := 18; TIMEOUT_SHORT := 3; OPEN_STEP := double_tenths 1 |}.

(** The time scale of the test scenario, in milliseconds: 100 per tick,
    a long threshold of 1000 and a short one of 300. *)
Definition scenario : Config :=
  {| TIMEOUT_LONG := 1000; TIMEOUT_SHORT := 300; OPEN_STEP := double_of_int 100 |}.

(** The globals of the sketch, the ticker (period in ms and attached
    callback, [None] when detached) and the publishes made so far, oldest
    first. *)
Record Machine : Type := mkMachine {
  TIMEOUT : Z;
  openTime : spec_float;
  state : State;
  coinCount : Z;
  ticker : option (Z * Callback);
  published : list Publish
}.

Definition set_TIMEOUT (v : Z) (m : Machine) : Machine :=
  mkMachine v (openTime m) (state m) (coinCount m) (ticker m) (published m).

Definition set_openTime (v : spec_float) (m : Machine) : Machine :=
  mkMachine (TIMEOUT m) v (state m) (coinCount m) (ticker m) (published m).

Definition set_state (v : State) (m : Machine) : Machine :=
  mkMachine (TIMEOUT m) (openTime m) v (coinCount m) (ticker m) (published m).

Definition set_coinCount (v : Z) (m : Machine) : Machine :=
  mkMachine (TIMEOUT m) (openTime m) (state m) v (ticker m) (published m).

Definition set_ticker (v : option (Z * Callback)) (m : Machine) : Machine :=
  mkMachine (TIMEOUT m) (openTime m) (state m) (coinCount m) v (published m).

Definition publish (p : Publish) (m : Machine) : Machine :=
  mkMachine (TIMEOUT m) (openTime m) (state m) (coinCount m) (ticker m)
            (published m ++ [p]).

(** ** The ticker helpers *)

(** [if (!ticker.active()) ticker.attach_ms(timeout, callback);] *)
Definition activateTimerIfNotActive (timeout : Z) (callback : Callback)
           (m : Machine) : Machine :=
  match ticker m with
  | Some _ => m
  | None => set_ticker (Some (timeout, callback)) m
  end.

(** [ticker.detach();] *)
Definition deactivateTimer (m : Machine) : Machine := set_ticker None m.

(** ** The handlers *)

Section Handlers.

Variable cfg : Config.

(** [openTime += 0.1] *)
Definition advance (t : spec_float) : spec_float :=
  float_add_double t (OPEN_STEP cfg).

(** [openTime >= TIMEOUT], the [int] converted to [float]. *)
Definition timed_out (m : Machine) : bool :=
  float_ge (openTime m) (float_of_int (TIMEOUT m)).

(** What the next [openTime += 0.1; openTime >= TIMEOUT] of a handler
    finds: the timer reaches the active threshold on the coming call. *)
Definition expires (m : Machine) : bool :=
  float_ge (advance (openTime m)) (float_of_int (TIMEOUT m)).

(** The timer [t] after [n] more handler calls added the step to it. *)
Fixpoint accumulate (n : nat) (t : spec_float) : spec_float :=
  match n with
  | O => t
  | S n' => accumulate n' (advance t)
  end.

(** The three handlers.  [pin2] is the level [digitalRead(2)] returns
    during the firing of the ticker: the handlers that call each other
    within one firing read the same level.  [fuel] bounds the depth of
    the calls the handlers make to each other, [None] meaning it ran out. *)
Fixpoint process_DRAWER_CLOSED_state (fuel : nat) (pin2 : Level) (m : Machine)
         {struct fuel} : option Machine :=
  match fuel with
  | O => None
  | S fuel' =>
      let m := set_openTime float_zero m in
      let m := activateTimerIfNotActive 100 cb_DRAWER_CLOSED m in
      match pin2 with
      | HIGH =>
          let m := deactivateTimer m in
          let m := set_state DRAWER_OPEN m in
          process_DRAWER_OPEN_state fuel' pin2 m
      | LOW => Some m
      end
  end

with process_DRAWER_OPEN_state (fuel : nat) (pin2 : Level) (m : Machine)
     {struct fuel} : option Machine :=
  match fuel with
  | O => None
  | S fuel' =>
      let m := activateTimerIfNotActive 100 cb_DRAWER_OPEN m in
      let m := set_openTime (advance (openTime m)) m in
      if timed_out m then
        let m := deactivateTimer m in
        let m := set_state OPEN_FOR_TOO_LONG m in
        let m := set_TIMEOUT (TIMEOUT_SHORT cfg) m in
        let m := set_openTime float_zero m in
        let m := publish (reporterPublisher MSG_TOO_LONG) m in
        process_OPEN_FOR_TOO_LONG_state fuel' pin2 m
      else
        match pin2 with
        | LOW =>
            let m := deactivateTimer m in
            let m := set_coinCount (int_incr (coinCount m)) m in
            let m := publish (coinCounterPublisher (coinCount m)) m in
            let m := set_state DRAWER_CLOSED m in
            process_DRAWER_CLOSED_state fuel' pin2 m
        | HIGH => Some m
        end
  end

with process_OPEN_FOR_TOO_LONG_state (fuel : nat) (pin2 : Level) (m : Machine)
     {struct fuel} : option Machine :=
  match fuel with
  | O => None
  | S fuel' =>
      let m := activateTimerIfNotActive 100 cb_OPEN_FOR_TOO_LONG m in
      let m := set_openTime (advance (openTime m)) m in
      match pin2 with
      | LOW =>
          let m := deactivateTimer m in
          let m := set_coinCount (int_incr (coinCount m)) m in
          let m := publish (coinCounterPublisher (coinCount m)) m in
          let m := publish (reporterPublisher MSG_FINALLY_CLOSED) m in
          let m := set_state DRAWER_CLOSED m in
          let m := set_TIMEOUT (TIMEOUT_LONG cfg) m in
          let m := set_openTime float_zero m in
          process_DRAWER_CLOSED_state fuel' pin2 m
      | HIGH =>
          if timed_out m then
            let m := publish (reporterPublisher MSG_KEEPS_OPEN) m in
            let m := set_openTime float_zero m in
            Some m
          else Some m
      end
  end.

(** Call of the function a [Callback] stands for. *)
Definition call (fuel : nat) (cb : Callback) (pin2 : Level) (m : Machine)
  : option Machine :=
  match cb with
  | cb_DRAWER_CLOSED => process_DRAWER_CLOSED_state fuel pin2 m
  | cb_DRAWER_OPEN => process_DRAWER_OPEN_state fuel pin2 m
  | cb_OPEN_FOR_TOO_LONG => process_OPEN_FOR_TOO_LONG_state fuel pin2 m
  end.

(** The ticker fires: the attached callback, if any, is called. *)
Definition fire (fuel : nat) (pin2 : Level) (m : Machine) : option Machine :=
  match ticker m with
  | Some (_, cb) => call fuel cb pin2 m
  | None => Some m
  end.

(** Three nested handler calls are the most one firing makes
    ([fire_tick] below), so this is the whole firing. *)
Definition tick (pin2 : Level) (m : Machine) : Machine :=
  match fire 3 pin2 m with
  | Some m' => m'
  | None => m
  end.

(** The ticks of a sequence of sensor readings, one reading per tick. *)
Fixpoint run (pins : list Level) (m : Machine) : Machine :=
  match pins with
  | [] => m
  | pin2 :: pins' => run pins' (tick pin2 m)
  end.

(** The globals as initialised, nothing attached, nothing published. *)
Definition power_on : Machine :=
  {| TIMEOUT := TIMEOUT_LONG cfg;
     openTime := float_zero;
     state := DRAWER_CLOSED;
     coinCount := 0;
     ticker := None;
     published := [] |}.

(** The part of [setup()] that concerns the state machine: one direct
    call of [process_DRAWER_CLOSED_state]. *)
Definition setup (fuel : nat) (pin2 : Level) : option Machine :=
  process_DRAWER_CLOSED_state fuel pin2 power_on.

Definition boot (pin2 : Level) : Machine :=
  match setup 3 pin2 with
  | Some m => m
  | None => power_on
  end.

End Handlers.

#[global] Arguments advance : simpl never.

(** ** Predicates used by the statements *)

Definition handler_of (s : State) : Callback :=
  match s with
  | DRAWER_CLOSED => cb_DRAWER_CLOSED
  | DRAWER_OPEN => cb_DRAWER_OPEN
  | OPEN_FOR_TOO_LONG => cb_OPEN_FOR_TOO_LONG
  end.

(** The machine is between two ticks: the handler of the current state is
    attached with the 100 ms period, and the counter is an [int]. *)
Definition wf (m : Machine) : Prop :=
  ticker m = Some (100, handler_of (state m)) /\ int_range (coinCount m).

(** The readings of the test scenario. *)
Definition scenario_pins : list Level :=
  repeat LIGHT_ON 2 ++ repeat LIGHT_BLOCKED 12 ++ [LIGHT_ON].

(** The machine [n] ticks after a start with the drawer closed, the light
    blocked at every one of these ticks. *)
Definition held_open (cfg : Config) (n : nat) : Machine :=
  run cfg (repeat LIGHT_BLOCKED n) (boot cfg LIGHT_ON).

(** A stuck machine of the sketch whose timer was just reset: the short
    threshold is the active one and the timer is at zero. *)
Definition stuck_idle (count : Z) (pubs : list Publish) : Machine :=
  {| TIMEOUT := TIMEOUT_SHORT sketch;
     openTime := float_zero;
     state := OPEN_FOR_TOO_LONG;
     coinCount := count;
     ticker := Some (100, cb_OPEN_FOR_TOO_LONG);
     published := pubs |}.

(** An open drawer of the sketch whose timer is exactly at the long
    threshold. *)
Definition at_threshold (count : Z) (pubs : list Publish) : Machine :=
  {| TIMEOUT := TIMEOUT_LONG sketch;
     openTime := float_of_int (TIMEOUT_LONG sketch);
     state := DRAWER_OPEN;
     coinCount := count;
     ticker := Some (100, cb_DRAWER_OPEN);
     published := pubs |}.

(** Time, in milliseconds, the ticker takes for [n] ticks of its 100 ms
    period. *)
Definition elapsed_ms (n : nat) : Z := 100 * Z.of_nat n.

(** ** What the publishes of a run look like *)

(** The values published on the coin counter feed, oldest first. *)
Fixpoint counts (l : list Publish) : list Z :=
  match l with
  | [] => []
  | coinCounterPublisher n :: l' => n :: counts l'
  | reporterPublisher _ :: l' => counts l'
  end.

(** The values a counter that starts at zero takes at its first [k]
    increments. *)
Definition first_counts (k : nat) : list Z :=
  map (fun i => int_wrap (Z.of_nat i)) (seq 1 k).

(** A reader of the two feeds: it waits for a count or for "open too long",
    after which it accepts "keeps open" reports until a count comes, which
    "finally closed" must follow. *)
Inductive LogMode : Type :=
| log_idle
| log_stuck
| log_closing.

Definition log_step (md : LogMode) (p : Publish) : option LogMode :=
  match md, p with
  | log_idle, coinCounterPublisher _ => Some log_idle
  | log_idle, reporterPublisher msg =>
      if String.eqb msg MSG_TOO_LONG then Some log_stuck else None
  | log_stuck, reporterPublisher msg =>
      if String.eqb msg MSG_KEEPS_OPEN then Some log_stuck else None
  | log_stuck, coinCounterPublisher _ => Some log_closing
  | log_closing, reporterPublisher msg =>
      if String.eqb msg MSG_FINALLY_CLOSED then Some log_idle else None
  | log_closing, coinCounterPublisher _ => None
  end.

Fixpoint log_run (md : LogMode) (l : list Publish) : option LogMode :=
  match l with
  | [] => Some md
  | p :: l' =>
      match log_step md p with
      | Some md' => log_run md' l'
      | None => None
      end
  end.

Definition mode_of (s : State) : LogMode :=
  match s with
  | OPEN_FOR_TOO_LONG => log_stuck
  | _ => log_idle
  end.

(** What holds of the globals between two ticks, besides [wf]: the short
    threshold is the active one exactly while the drawer is stuck, and the
    timer of a closed drawer is at zero. *)
Definition consistent (cfg : Config) (m : Machine) : Prop :=
  wf m
  /\ TIMEOUT m = match state m with
                 | OPEN_FOR_TOO_LONG => TIMEOUT_SHORT cfg
                 | _ => TIMEOUT_LONG cfg
                 end
  /\ (state m = DRAWER_CLOSED -> openTime m = float_zero).

(** The coin counter feed received the first values of the counter, one
    for each increment, and the counter holds the last of them. *)
Definition counted (m : Machine) : Prop :=
  counts (published m) = first_counts (List.length (counts (published m)))
  /\ coinCount m = int_wrap (Z.of_nat (List.length (counts (published m)))).

(** The reader of the feeds accepts what was published and is stuck exactly
    when the machine is. *)
Definition log_ok (m : Machine) : Prop :=
  log_run log_idle (published m) = Some (mode_of (state m)).

(** ** Start-up of the sketch: Wi-Fi, MQTT, [setup()] *)

Module Startup.

(** The calls the start-up code makes that change something outside the
    sketch, in order. *)
Inductive Action : Type :=
| WiFi_begin
| mqtt_connect
| mqtt_disconnect
| pinMode_INPUT_PULLUP
| delay (ms : Z).

(** How a function ends: it returns, or it reaches [while (1);] and spins
    until the watchdog resets the board. *)
Inductive Outcome : Type :=
| Returned
| Halted.

(** What the collaborators answer: the value of the k-th [WiFi.status()],
    of [mqtt.connected()], of the k-th [mqtt.connect()], and the level of
    pin 2. *)
Record World : Type := mkWorld {
  wifi_status : nat -> Z;
  mqtt_connected : bool;
  mqtt_connect_ret : nat -> Z;
  pin2_level : Level
}.

(** [x--] on a [uint8_t]. *)
Definition uint8_decr (x : Z) : Z := (x - 1) mod 2 ^ 8.

Section WithConstants.

(** The value of [WL_CONNECTED], declared by the Wi-Fi library. *)
Variable WL_CONNECTED : Z.

(** [while (WiFi.status() != WL_CONNECTED) { delay(500); Serial.print("."); }]
    from the poll number [polls] on; [None] when [fuel] polls did not see
    the connection. *)
Fixpoint connectToWifi_wait (fuel : nat) (status : nat -> Z) (polls : nat)
  : option (list Action) :=
  match fuel with
  | O => None
  | S fuel' =>
      if status polls =? WL_CONNECTED then Some []
      else
        match connectToWifi_wait fuel' status (S polls) with
        | Some acts => Some (delay 500 :: acts)
        | None => None
        end
  end.

Definition connectToWifi (fuel : nat) (status : nat -> Z) : option (list Action) :=
  match connectToWifi_wait fuel status 0 with
  | Some acts => Some (WiFi_begin :: acts)
  | None => None
  end.

(** One failed attempt: [mqtt.connect()], [mqtt.disconnect()], [delay(5000)]. *)
Definition failed_attempt : list Action :=
  [mqtt_connect; mqtt_disconnect; delay 5000].

(** [while ((ret = mqtt.connect()) != 0) { ...; retries--; if (retries == 0) while (1); }]
    from the call number [calls] on. *)
Fixpoint MQTT_connect_loop (fuel : nat) (ret : nat -> Z) (calls : nat) (retries : Z)
  : option (Outcome * list Action) :=
  match fuel with
  | O => None
  | S fuel' =>
      if ret calls =? 0 then Some (Returned, [mqtt_connect])
      else
        let retries := uint8_decr retries in
        if retries =? 0 then Some (Halted, failed_attempt)
        else
          match MQTT_connect_loop fuel' ret (S calls) retries with
          | Some (out, acts) => Some (out, failed_attempt ++ acts)
          | None => None
          end
  end.

Definition MQTT_connect (fuel : nat) (connected : bool) (ret : nat -> Z)
  : option (Outcome * list Action) :=
  if connected then Some (Returned, [])
  else MQTT_connect_loop fuel ret 0 3.

(** [setup()]: the serial port and a 50 ms pause, the Wi-Fi, the MQTT
    connection, the pin, and the first call of the state machine.  The
    machine is the powered-on one when the MQTT connection halts the
    sketch before the state machine starts. *)
Definition setup (cfg : Config) (fuel : nat) (w : World)
  : option (Outcome * list Action * Machine) :=
  match connectToWifi fuel (wifi_status w) with
  | None => None
  | Some wifi =>
      match MQTT_connect fuel (mqtt_connected w) (mqtt_connect_ret w) with
      | None => None
      | Some (Halted, mqtt) => Some (Halted, delay 50 :: wifi ++ mqtt, power_on cfg)
      | Some (Returned, mqtt) =>
          match process_DRAWER_CLOSED_state cfg fuel (pin2_level w) (power_on cfg) with
          | None => None
          | Some m =>
              Some (Returned, delay 50 :: wifi ++ mqtt ++ [pinMode_INPUT_PULLUP], m)
          end
      end
  end.

End WithConstants.

(** The number of [mqtt.connect()] calls in a trace. *)
Fixpoint connects (acts : list Action) : nat :=
  match acts with
  | [] => O
  | mqtt_connect :: acts' => S (connects acts')
  | _ :: acts' => connects acts'
  end.

(** The time spent in [delay], in milliseconds. *)
Fixpoint delayed (acts : list Action) : Z :=
  match acts with
  | [] => 0
  | delay ms :: acts' => ms + delayed acts'
  | _ :: acts' => delayed acts'
  end.

End Startup.

(** ** The first sketch: a counter of samples (primeiros-passos-LDR) *)

Module Primeiros.

(** The globals [status] and [fichas], the numbers printed on the serial
    port, oldest first, and the time spent in [delay], in milliseconds. *)
Record Sketch : Type := mkSketch {
  status : bool;
  fichas : Z;
  printed : list Z;
  waited : Z
}.

Definition start : Sketch :=
  {| status := false; fichas := 0; printed := []; waited := 0 |}.

(** One pass of [loop()], [pin2] being what [digitalRead(2)] returns. *)
Definition loop (pin2 : Level) (s : Sketch) : Sketch :=
  let status' := match pin2 with HIGH => true | LOW => false end in
  let waited' := waited s + 1000 in
  if status' then
    let fichas' := int_incr (fichas s) in
    {| status := status';
       fichas := fichas';
       printed := printed s ++ [fichas'];
       waited := waited' + 2000 |}
  else
    {| status := status';
       fichas := fichas s;
       printed := printed s;
       waited := waited' |}.

Fixpoint loops (pins : list Level) (s : Sketch) : Sketch :=
  match pins with
  | [] => s
  | pin2 :: pins' => loops pins' (loop pin2 s)
  end.

(** The number of [HIGH] readings of a sequence. *)
Fixpoint highs (pins : list Level) : nat :=
  match pins with
  | [] => O
  | HIGH :: pins' => S (highs pins')
  | LOW :: pins' => highs pins'
  end.

End Primeiros.

(** ** Tactics *)

(** Reduction of the record updates and of handler calls on explicit fuel,
    leaving the arithmetic on timers and counters folded. *)
Ltac machine_red :=
  cbv beta iota zeta delta
      [tick fire call run boot setup power_on expires timed_out handler_of
       process_DRAWER_CLOSED_state process_DRAWER_OPEN_state
       process_OPEN_FOR_TOO_LONG_state
       activateTimerIfNotActive deactivateTimer publish
       set_TIMEOUT set_openTime set_state set_coinCount set_ticker
       TIMEOUT openTime state coinCount ticker published] in *.

(** Case analysis on every timer comparison of the goal. *)
Ltac split_timers :=
  repeat match goal with
         | |- context [float_ge ?a ?b] => destruct (float_ge a b) eqn:?
         end.

(** Linear arithmetic on the bounds of [int]. *)
Ltac int_lia := unfold int_range, INT_MIN, INT_MAX in *; lia.

(** One firing of the ticker on a machine given by its fields. *)
Ltac fire_once := machine_red; split_timers; machine_red.

(** ** Machine integers *)

Lemma int_wrap_range (z : Z) : int_range (int_wrap z).
Proof.
  unfold int_range, int_wrap, INT_MIN, INT_MAX.
  pose proof (Z.mod_pos_bound (z + 2 ^ 31) (2 ^ 32) ltac:(lia)). lia.
Qed.

Lemma int_incr_exact (z : Z) : INT_MIN <= z < INT_MAX -> int_incr z = z + 1.
Proof.
  unfold int_incr, int_wrap, INT_MIN, INT_MAX. intros H.
  rewrite Z.mod_small; lia.
Qed.

Lemma int_incr_overflow : int_incr INT_MAX = INT_MIN.
Proof. reflexivity. Qed.

(** The literal [0.1] is the binary64 number 0x3FB999999999999A, and
    adding it to a zero [float] gives the binary32 number 0x3DCCCCCD. *)
Lemma double_tenth_bits :
  double_tenths 1 = S754_finite false 7205759403792794 (-56)
  /\ advance sketch float_zero = S754_finite false 13421773 (-27).
Proof. split; vm_compute; reflexivity. Qed.

(** ** One firing of the ticker *)

Section Firing.

Variable cfg : Config.

(** The handlers, one call unfolded. *)
Lemma closed_eq (fuel : nat) (pin2 : Level) (m : Machine) :
  process_DRAWER_CLOSED_state cfg (S fuel) pin2 m =
  let m1 := activateTimerIfNotActive 100 cb_DRAWER_CLOSED (set_openTime float_zero m) in
  match pin2 with
  | HIGH => process_DRAWER_OPEN_state cfg fuel pin2
              (set_state DRAWER_OPEN (deactivateTimer m1))
  | LOW => Some m1
  end.
Proof. reflexivity. Qed.

Lemma open_eq (fuel : nat) (pin2 : Level) (m : Machine) :
  process_DRAWER_OPEN_state cfg (S fuel) pin2 m =
  let m0 := activateTimerIfNotActive 100 cb_DRAWER_OPEN m in
  let m1 := set_openTime (advance cfg (openTime m0)) m0 in
  if timed_out m1 then
    process_OPEN_FOR_TOO_LONG_state cfg fuel pin2
      (publish (reporterPublisher MSG_TOO_LONG)
         (set_openTime float_zero
            (set_TIMEOUT (TIMEOUT_SHORT cfg)
               (set_state OPEN_FOR_TOO_LONG (deactivateTimer m1)))))
  else
    match pin2 with
    | LOW =>
        let m2 := set_coinCount (int_incr (coinCount m1)) (deactivateTimer m1) in
        process_DRAWER_CLOSED_state cfg fuel pin2
          (set_state DRAWER_CLOSED (publish (coinCounterPublisher (coinCount m2)) m2))
    | HIGH => Some m1
    end.
Proof. reflexivity. Qed.

Lemma too_long_eq (fuel : nat) (pin2 : Level) (m : Machine) :
  process_OPEN_FOR_TOO_LONG_state cfg (S fuel) pin2 m =
  let m0 := activateTimerIfNotActive 100 cb_OPEN_FOR_TOO_LONG m in
  let m1 := set_openTime (advance cfg (openTime m0)) m0 in
  match pin2 with
  | LOW =>
      let m2 := set_coinCount (int_incr (coinCount m1)) (deactivateTimer m1) in
      process_DRAWER_CLOSED_state cfg fuel pin2
        (set_openTime float_zero
           (set_TIMEOUT (TIMEOUT_LONG cfg)
              (set_state DRAWER_CLOSED
                 (publish (reporterPublisher MSG_FINALLY_CLOSED)
                    (publish (coinCounterPublisher (coinCount m2)) m2)))))
  | HIGH =>
      if timed_out m1 then
        Some (set_openTime float_zero (publish (reporterPublisher MSG_KEEPS_OPEN) m1))
      else Some m1
  end.
Proof. reflexivity. Qed.

(** A handler that returned with some fuel returns the same with more. *)
Lemma call_fuel_mono (fuel : nat) :
  forall (cb : Callback) (pin2 : Level) (m m' : Machine),
    call cfg fuel cb pin2 m = Some m' -> call cfg (S fuel) cb pin2 m = Some m'.
Proof.
  induction fuel as [|fuel IH]; intros cb pin2 m m' H.
  - destruct cb; discriminate H.
  - pose proof (IH cb_DRAWER_CLOSED pin2) as IHc.
    pose proof (IH cb_DRAWER_OPEN pin2) as IHo.
    pose proof (IH cb_OPEN_FOR_TOO_LONG pin2) as IHs.
    clear IH. unfold call in *. destruct cb.
    + rewrite closed_eq in H. rewrite closed_eq. cbv zeta in *.
      destruct pin2; [exact H | apply IHo; exact H].
    + rewrite open_eq in H. rewrite open_eq. cbv zeta in *.
      destruct (timed_out _); [apply IHs; exact H|].
      destruct pin2; [apply IHc; exact H | exact H].
    + rewrite too_long_eq in H. rewrite too_long_eq. cbv zeta in *.
      destruct pin2; [apply IHc; exact H | exact H].
Qed.

Lemma call_fuel_more (extra fuel : nat) (cb : Callback) (pin2 : Level) (m m' : Machine) :
  call cfg fuel cb pin2 m = Some m' -> call cfg (extra + fuel) cb pin2 m = Some m'.
Proof.
  intros H. induction extra as [|extra IH]; [exact H|].
  apply call_fuel_mono. exact IH.
Qed.

(** Three levels of calls always suffice: the handler reached by a second
    transition of the same tick sees the reading that excludes a third. *)
Lemma call_three (cb : Callback) (pin2 : Level) (m : Machine) :
  exists m', call cfg 3 cb pin2 m = Some m'.
Proof.
  destruct m as [T ot st c tk pubs].
  destruct cb, pin2, tk as [[p cb']|]; fire_once; eexists; reflexivity.
Qed.

Lemma fire_tick (pin2 : Level) (m : Machine) (extra : nat) :
  fire cfg (extra + 3) pin2 m = Some (tick cfg pin2 m).
Proof.
  unfold tick, fire. destruct (ticker m) as [[p cb]|]; [|reflexivity].
  destruct (call_three cb pin2 m) as [m' H]. rewrite H.
  apply call_fuel_more. exact H.
Qed.

(** The handler of the current state stays the attached one, and the
    counter stays an [int]. *)
Lemma tick_wf (pin2 : Level) (m : Machine) : wf m -> wf (tick cfg pin2 m).
Proof.
  destruct m as [T ot st c tk pubs]. unfold wf. machine_red.
  intros [Htk Hc]. subst tk.
  destruct st, pin2; fire_once; split; try reflexivity; try exact Hc;
    apply int_wrap_range.
Qed.

Lemma boot_wf (pin2 : Level) : wf (boot cfg pin2).
Proof.
  unfold wf. destruct pin2; fire_once;
    (split; [reflexivity | unfold int_range, INT_MIN, INT_MAX; lia]).
Qed.

Lemma run_wf (pins : list Level) (m : Machine) : wf m -> wf (run cfg pins m).
Proof.
  revert m. induction pins as [|pin2 pins IH]; intros m H; [exact H|].
  apply IH, tick_wf, H.
Qed.

Lemma run_app (pins1 pins2 : list Level) (m : Machine) :
  run cfg (pins1 ++ pins2) m = run cfg pins2 (run cfg pins1 m).
Proof.
  revert m. induction pins1 as [|pin2 pins1 IH]; intros m; [reflexivity|].
  apply IH.
Qed.

(** *** Ticks that see the light blocked *)

Lemma tick_blocked_coinCount (m : Machine) :
  coinCount (tick cfg LIGHT_BLOCKED m) = coinCount m.
Proof.
  destruct m as [T ot st c [[p cb]|] pubs]; [destruct cb|]; fire_once; reflexivity.
Qed.

Lemma run_blocked_coinCount (n : nat) (m : Machine) :
  coinCount (run cfg (repeat LIGHT_BLOCKED n) m) = coinCount m.
Proof.
  revert m. induction n as [|n IH]; intros m; [reflexivity|].
  change (coinCount (run cfg (repeat LIGHT_BLOCKED n) (tick cfg LIGHT_BLOCKED m))
          = coinCount m).
  rewrite IH. apply tick_blocked_coinCount.
Qed.

Lemma tick_blocked_not_closed (m : Machine) :
  wf m -> state (tick cfg LIGHT_BLOCKED m) <> DRAWER_CLOSED.
Proof.
  destruct m as [T ot st c tk pubs]. unfold wf. machine_red.
  intros [Htk _]. subst tk. destruct st; fire_once; discriminate.
Qed.

(** Once stuck, the machine stays stuck as long as the light is blocked. *)
Lemma tick_blocked_stuck (m : Machine) :
  wf m -> state m = OPEN_FOR_TOO_LONG ->
  state (tick cfg LIGHT_BLOCKED m) = OPEN_FOR_TOO_LONG.
Proof.
  destruct m as [T ot st c tk pubs]. unfold wf. machine_red.
  intros [Htk _] Hst. subst tk st. fire_once; reflexivity.
Qed.

Lemma run_blocked_stuck (n : nat) (m : Machine) :
  wf m -> state m = OPEN_FOR_TOO_LONG ->
  state (run cfg (repeat LIGHT_BLOCKED n) m) = OPEN_FOR_TOO_LONG.
Proof.
  revert m. induction n as [|n IH]; intros m Hwf Hst; [exact Hst|].
  apply IH; [apply tick_wf, Hwf | apply tick_blocked_stuck; assumption].
Qed.

(** A blocked tick that ends in [DRAWER_OPEN] started closed or open, and
    published nothing. *)
Lemma tick_blocked_open (m : Machine) :
  wf m -> state (tick cfg LIGHT_BLOCKED m) = DRAWER_OPEN ->
  state m <> OPEN_FOR_TOO_LONG
  /\ published (tick cfg LIGHT_BLOCKED m) = published m
  /\ TIMEOUT (tick cfg LIGHT_BLOCKED m) = TIMEOUT m.
Proof.
  destruct m as [T ot st c tk pubs]. unfold wf. machine_red.
  intros [Htk _]. subst tk.
  destruct st; fire_once; intros H; try discriminate H;
    (split; [discriminate | split; reflexivity]).
Qed.

Lemma run_blocked_open (n : nat) (m : Machine) :
  wf m -> state (run cfg (repeat LIGHT_BLOCKED n) m) = DRAWER_OPEN ->
  published (run cfg (repeat LIGHT_BLOCKED n) m) = published m
  /\ TIMEOUT (run cfg (repeat LIGHT_BLOCKED n) m) = TIMEOUT m.
Proof.
  revert m. induction n as [|n IH]; intros m Hwf Hend; [split; reflexivity|].
  change (run cfg (repeat LIGHT_BLOCKED (S n)) m)
    with (run cfg (repeat LIGHT_BLOCKED n) (tick cfg LIGHT_BLOCKED m)) in *.
  pose proof (tick_wf LIGHT_BLOCKED m Hwf) as Hwf1.
  destruct (state (tick cfg LIGHT_BLOCKED m)) eqn:Hmid.
  - exfalso. exact (tick_blocked_not_closed m Hwf Hmid).
  - destruct (IH _ Hwf1 Hend) as [Hp Ht].
    destruct (tick_blocked_open m Hwf Hmid) as (_ & Hp1 & Ht1).
    split; congruence.
  - rewrite (run_blocked_stuck n _ Hwf1 Hmid) in Hend. discriminate Hend.
Qed.

(** *** Ticks that see the light again *)

(** The closing tick of a cycle that did not time out. *)
Lemma tick_open_closes (m : Machine) :
  wf m -> state m = DRAWER_OPEN -> expires cfg m = false ->
  tick cfg LIGHT_ON m =
  {| TIMEOUT := TIMEOUT m;
     openTime := float_zero;
     state := DRAWER_CLOSED;
     coinCount := int_incr (coinCount m);
     ticker := Some (100, cb_DRAWER_CLOSED);
     published := published m ++ [coinCounterPublisher (int_incr (coinCount m))] |}.
Proof.
  destruct m as [T ot st c tk pubs]. unfold wf. machine_red.
  intros [Htk _] Hst Hexp. subst tk st. rewrite Hexp. reflexivity.
Qed.

(** *** Ticks of a stuck drawer, and the tick that finds it stuck *)

Lemma tick_open_promotes (m : Machine) :
  wf m -> state m = DRAWER_OPEN -> expires cfg m = true ->
  float_ge (advance cfg float_zero) (float_of_int (TIMEOUT_SHORT cfg)) = false ->
  tick cfg LIGHT_BLOCKED m =
  {| TIMEOUT := TIMEOUT_SHORT cfg;
     openTime := advance cfg float_zero;
     state := OPEN_FOR_TOO_LONG;
     coinCount := coinCount m;
     ticker := Some (100, cb_OPEN_FOR_TOO_LONG);
     published := published m ++ [reporterPublisher MSG_TOO_LONG] |}.
Proof.
  destruct m as [T ot st c tk pubs]. unfold wf. machine_red.
  intros [Htk _] Hst Hexp Hshort. subst tk st.
  rewrite Hexp, Hshort. reflexivity.
Qed.

Lemma tick_stuck_waits (m : Machine) :
  wf m -> state m = OPEN_FOR_TOO_LONG -> expires cfg m = false ->
  tick cfg LIGHT_BLOCKED m = set_openTime (advance cfg (openTime m)) m.
Proof.
  destruct m as [T ot st c tk pubs]. unfold wf. machine_red.
  intros [Htk _] Hst Hexp. subst tk st. rewrite Hexp. reflexivity.
Qed.

Lemma tick_stuck_notifies (m : Machine) :
  wf m -> state m = OPEN_FOR_TOO_LONG -> expires cfg m = true ->
  tick cfg LIGHT_BLOCKED m =
  set_openTime float_zero (publish (reporterPublisher MSG_KEEPS_OPEN) m).
Proof.
  destruct m as [T ot st c tk pubs]. unfold wf. machine_red.
  intros [Htk _] Hst Hexp. subst tk st. rewrite Hexp. reflexivity.
Qed.

(** While the accumulated timer stays below the threshold, blocked ticks
    of a stuck drawer only advance the timer. *)
Lemma stuck_waits_run (n : nat) :
  forall m : Machine,
    wf m -> state m = OPEN_FOR_TOO_LONG ->
    (forall i, (i < n)%nat ->
       float_ge (accumulate cfg (S i) (openTime m)) (float_of_int (TIMEOUT m)) = false) ->
    run cfg (repeat LIGHT_BLOCKED n) m
    = set_openTime (accumulate cfg n (openTime m)) m.
Proof.
  induction n as [|n IH]; intros m Hwf Hst Hlow.
  - destruct m; reflexivity.
  - change (run cfg (repeat LIGHT_BLOCKED (S n)) m)
      with (run cfg (repeat LIGHT_BLOCKED n) (tick cfg LIGHT_BLOCKED m)).
    assert (Hexp : expires cfg m = false) by (apply (Hlow O); lia).
    rewrite (tick_stuck_waits m Hwf Hst Hexp).
    rewrite IH.
    + destruct m; reflexivity.
    + destruct m, Hwf; split; assumption.
    + destruct m; exact Hst.
    + intros i Hi. destruct m. apply (Hlow (S i)). lia.
Qed.

(** The notification comes with the first call at which the accumulated
    timer reaches the threshold, and the timer starts again from zero. *)
Lemma stuck_period (n : nat) (m : Machine) :
  wf m -> state m = OPEN_FOR_TOO_LONG ->
  (forall i, (i < n)%nat ->
     float_ge (accumulate cfg (S i) (openTime m)) (float_of_int (TIMEOUT m)) = false) ->
  float_ge (accumulate cfg (S n) (openTime m)) (float_of_int (TIMEOUT m)) = true ->
  run cfg (repeat LIGHT_BLOCKED (S n)) m
  = set_openTime float_zero (publish (reporterPublisher MSG_KEEPS_OPEN) m).
Proof.
  intros Hwf Hst Hlow Hhigh.
  replace (S n) with (n + 1)%nat by lia.
  rewrite repeat_app, run_app, (stuck_waits_run n m Hwf Hst Hlow).
  change (run cfg (repeat LIGHT_BLOCKED 1) ?x) with (tick cfg LIGHT_BLOCKED x).
  rewrite tick_stuck_notifies.
  - destruct m; reflexivity.
  - destruct m, Hwf; split; assumption.
  - destruct m; exact Hst.
  - unfold expires. destruct m as [T ot st c tk pubs].
    cbn [openTime TIMEOUT set_openTime] in *.
    clear - Hhigh. revert ot Hhigh.
    induction n as [|n IHn]; intros t H; [exact H|].
    apply (IHn (advance cfg t)). exact H.
Qed.

(** *** Publishes are only ever added *)

Lemma tick_extends (pin2 : Level) (m : Machine) :
  exists l, published (tick cfg pin2 m) = published m ++ l.
Proof.
  destruct m as [T ot st c [[p cb]|] pubs]; [destruct cb|]; destruct pin2;
    fire_once; rewrite <- ?app_assoc;
    first [ now (exists []; rewrite app_nil_r) | eexists; reflexivity ].
Qed.

Lemma run_extends (pins : list Level) (m : Machine) :
  exists l, published (run cfg pins m) = published m ++ l.
Proof.
  revert m. induction pins as [|pin2 pins IH]; intros m.
  - exists []. cbn. now rewrite app_nil_r.
  - destruct (tick_extends pin2 m) as [l1 H1].
    destruct (IH (tick cfg pin2 m)) as [l2 H2].
    exists (l1 ++ l2). cbn [run]. rewrite H2, H1. apply eq_sym, app_assoc.
Qed.

(** Between two moments of a blocked run with the same publishes, nothing
    is published. *)
Lemma blocked_squeeze (m : Machine) (a n b : nat) :
  (a <= n <= b)%nat ->
  published (run cfg (repeat LIGHT_BLOCKED a) m)
  = published (run cfg (repeat LIGHT_BLOCKED b) m) ->
  published (run cfg (repeat LIGHT_BLOCKED n) m)
  = published (run cfg (repeat LIGHT_BLOCKED a) m).
Proof.
  intros [Han Hnb] Hab.
  replace b with (n + (b - n))%nat in Hab by lia.
  replace n with (a + (n - a))%nat in Hab |- * by lia.
  rewrite !repeat_app, !run_app in *.
  set (ma := run cfg (repeat LIGHT_BLOCKED a) m) in *.
  destruct (run_extends (repeat LIGHT_BLOCKED (n - a)) ma) as [l1 H1].
  destruct (run_extends (repeat LIGHT_BLOCKED (b - (a + (n - a))))
              (run cfg (repeat LIGHT_BLOCKED (n - a)) ma)) as [l2 H2].
  rewrite H2, H1, <- app_assoc in Hab.
  rewrite <- (app_nil_r (published ma)) in Hab at 1.
  apply app_inv_head in Hab. symmetry in Hab.
  apply app_eq_nil in Hab. destruct Hab as [Hl1 _]. subst l1.
  rewrite H1. apply app_nil_r.
Qed.

(** *** The timer of an open drawer between two ticks *)

(** The open handler tests the timer right after adding to it, so a tick
    (or [setup]) that leaves the machine in [DRAWER_OPEN] leaves its timer
    below the threshold. *)
Lemma tick_open_below (pin2 : Level) (m : Machine) :
  wf m -> state (tick cfg pin2 m) = DRAWER_OPEN -> timed_out (tick cfg pin2 m) = false.
Proof.
  destruct m as [T ot st c tk pubs]. unfold wf. machine_red.
  intros [Htk _]. subst tk.
  destruct st, pin2; fire_once; intros H; first [discriminate H | assumption].
Qed.

Lemma open_timer_below_threshold (pin0 : Level) (pins : list Level) :
  state (run cfg pins (boot cfg pin0)) = DRAWER_OPEN ->
  timed_out (run cfg pins (boot cfg pin0)) = false.
Proof.
  induction pins as [|pin2 pins _] using rev_ind.
  - destruct pin0; fire_once; intros H; first [discriminate H | assumption].
  - rewrite run_app. apply tick_open_below, run_wf, boot_wf.
Qed.

(** ** The claims that hold for every choice of the constants *)

(** C9. A tick is total: whatever the attached handler, the globals and the
    reading of the pin, the handlers called during one firing of the ticker
    return after at most three nested calls, and more fuel does not change
    the machine they return (the one [tick] computes). *)
Theorem tick_terminates (pin2 : Level) (m : Machine) (extra : nat) :
  fire cfg (extra + 3) pin2 m = Some (tick cfg pin2 m)
  /\ forall cb : Callback,
      exists m', call cfg 3 cb pin2 m = Some m'
                 /\ call cfg (extra + 3) cb pin2 m = Some m'.
Proof.
  split; [apply fire_tick|].
  intros cb. destruct (call_three cb pin2 m) as [m' H].
  exists m'. split; [exact H | apply call_fuel_more, H].
Qed.

(** C7. No double count: from [DRAWER_OPEN], however many ticks see the
    light blocked, the coin count is the one the run started with -- also on
    the tick that promotes the machine to [OPEN_FOR_TOO_LONG] -- and the
    machine does not return to [DRAWER_CLOSED]; a tick that changes the
    count is a tick that read [LIGHT_ON]. *)
Theorem no_double_count (m : Machine) (n : nat) :
  wf m -> state m = DRAWER_OPEN ->
  coinCount (run cfg (repeat LIGHT_BLOCKED n) m) = coinCount m
  /\ (n <> O -> state (run cfg (repeat LIGHT_BLOCKED n) m) <> DRAWER_CLOSED)
  /\ forall (pin2 : Level) (m' : Machine),
      coinCount (tick cfg pin2 m') <> coinCount m' -> pin2 = LIGHT_ON.
Proof.
  intros Hwf Hst. split; [apply run_blocked_coinCount|]. split.
  - intros Hn. destruct n as [|n]; [contradiction|].
    replace (S n) with (n + 1)%nat by lia.
    rewrite repeat_app, run_app.
    apply tick_blocked_not_closed, run_wf, Hwf.
  - intros pin2 m' H. destruct pin2; [reflexivity|].
    exfalso. apply H, tick_blocked_coinCount.
Qed.

(** C2, amended. One tick makes at most three publishes, and it makes three
    only when the open handler is the attached one, the timer reaches the
    threshold on this tick and the pin reads [LIGHT_ON]. *)
Theorem tick_publishes_at_most_three (pin2 : Level) (m : Machine) :
  exists l : list Publish,
    published (tick cfg pin2 m) = published m ++ l
    /\ (List.length l <= 3)%nat
    /\ (List.length l = 3%nat ->
        pin2 = LIGHT_ON /\ expires cfg m = true
        /\ exists period, ticker m = Some (period, cb_DRAWER_OPEN)).
Proof.
  destruct m as [T ot st c [[p cb]|] pubs]; [destruct cb|]; destruct pin2;
    fire_once; rewrite <- ?app_assoc; cbn [app];
    try (exists []; rewrite app_nil_r; split; [reflexivity|];
         split; [cbn; lia | cbn; discriminate]);
    (eexists; split; [reflexivity|]; split; [cbn; lia|]; cbn; intros H;
     try discriminate H; repeat split; eauto).
Qed.

(** C6. Recovery from stuck: a tick of [OPEN_FOR_TOO_LONG] that reads
    [LIGHT_ON] closes the drawer, counts one coin, publishes the count and
    then the "finally closed" message, resets the timer to zero and puts
    the long threshold back (the counter being below [INT_MAX]). *)
Theorem recovery_from_stuck (m : Machine) :
  wf m -> state m = OPEN_FOR_TOO_LONG -> coinCount m < INT_MAX ->
  tick cfg LIGHT_ON m =
  {| TIMEOUT := TIMEOUT_LONG cfg;
     openTime := float_zero;
     state := DRAWER_CLOSED;
     coinCount := coinCount m + 1;
     ticker := Some (100, cb_DRAWER_CLOSED);
     published := published m ++ [coinCounterPublisher (coinCount m + 1);
                                  reporterPublisher MSG_FINALLY_CLOSED] |}.
Proof.
  destruct m as [T ot st c tk pubs]. unfold wf, int_range. machine_red.
  intros [Htk Hc] Hst Hmax. subst tk st.
  rewrite int_incr_exact by int_lia. rewrite <- app_assoc. reflexivity.
Qed.

(** C10. In [DRAWER_OPEN] the timeout test comes first: when the timer
    reaches the threshold on a tick that reads [LIGHT_ON], the open handler
    promotes the machine and publishes "open too long", the handler of
    [OPEN_FOR_TOO_LONG] it then calls sees [LIGHT_ON] and closes the drawer:
    one increment and three publishes in that one tick. *)
Theorem timeout_precedes_closure (m : Machine) :
  wf m -> state m = DRAWER_OPEN -> expires cfg m = true -> coinCount m < INT_MAX ->
  (exists promoted : Machine,
      process_DRAWER_OPEN_state cfg 3 LIGHT_ON m
      = process_OPEN_FOR_TOO_LONG_state cfg 2 LIGHT_ON promoted
      /\ state promoted = OPEN_FOR_TOO_LONG
      /\ coinCount promoted = coinCount m
      /\ published promoted = published m ++ [reporterPublisher MSG_TOO_LONG])
  /\ tick cfg LIGHT_ON m =
     {| TIMEOUT := TIMEOUT_LONG cfg;
        openTime := float_zero;
        state := DRAWER_CLOSED;
        coinCount := coinCount m + 1;
        ticker := Some (100, cb_DRAWER_CLOSED);
        published := published m ++ [reporterPublisher MSG_TOO_LONG;
                                     coinCounterPublisher (coinCount m + 1);
                                     reporterPublisher MSG_FINALLY_CLOSED] |}.
Proof.
  destruct m as [T ot st c tk pubs]. unfold wf, int_range.
  intros [Htk Hc] Hst Hexp Hmax. cbn in Htk, Hc, Hst, Hmax. subst tk st. split.
  - exists {| TIMEOUT := TIMEOUT_SHORT cfg;
              openTime := float_zero;
              state := OPEN_FOR_TOO_LONG;
              coinCount := c;
              ticker := None;
              published := pubs ++ [reporterPublisher MSG_TOO_LONG] |}.
    split; [|repeat split]. machine_red. rewrite Hexp. reflexivity.
  - machine_red. rewrite Hexp.
    rewrite int_incr_exact by int_lia. rewrite <- !app_assoc. reflexivity.
Qed.

(** C5. Single increment per cycle: from [DRAWER_CLOSED], one or more ticks
    with the light blocked that leave the machine in [DRAWER_OPEN] (no
    timeout) followed by a tick that reads [LIGHT_ON] before the timer
    reaches the threshold end in [DRAWER_CLOSED] with the count raised by
    exactly one and exactly one publish, the numeric one; it carries the
    count as already incremented. *)
Theorem single_increment_per_cycle (m : Machine) (n : nat) :
  wf m -> state m = DRAWER_CLOSED -> coinCount m < INT_MAX ->
  state (run cfg (repeat LIGHT_BLOCKED (S n)) m) = DRAWER_OPEN ->
  expires cfg (run cfg (repeat LIGHT_BLOCKED (S n)) m) = false ->
  state (run cfg (repeat LIGHT_BLOCKED (S n) ++ [LIGHT_ON]) m) = DRAWER_CLOSED
  /\ coinCount (run cfg (repeat LIGHT_BLOCKED (S n) ++ [LIGHT_ON]) m) = coinCount m + 1
  /\ published (run cfg (repeat LIGHT_BLOCKED (S n) ++ [LIGHT_ON]) m)
     = published m ++ [coinCounterPublisher (coinCount m + 1)].
Proof.
  intros Hwf Hst Hmax Hopen Hexp.
  rewrite run_app.
  destruct (run_blocked_open (S n) m Hwf Hopen) as [Hp _].
  pose proof (run_blocked_coinCount (S n) m) as Hc.
  pose proof (run_wf (repeat LIGHT_BLOCKED (S n)) m Hwf) as Hwf'.
  remember (run cfg (repeat LIGHT_BLOCKED (S n)) m) as opened eqn:Heq.
  clear Heq.
  change (run cfg [LIGHT_ON] opened) with (tick cfg LIGHT_ON opened).
  rewrite (tick_open_closes opened Hwf' Hopen Hexp).
  cbn [state coinCount published].
  destruct Hwf as [_ Hmin].
  rewrite Hc, Hp, int_incr_exact by int_lia. repeat split.
Qed.

End Firing.

(** ** The test scenario *)

(** C1, as stated, fails: with 100 per tick and the thresholds 1000 and
    300, two readings [LIGHT_ON], twelve [LIGHT_BLOCKED] and one
    [LIGHT_ON] do not produce the three publishes "open too long", 1,
    "finally closed" and nothing else. *)
Lemma scenario_publishes_not_three :
  ~ (coinCount (run scenario scenario_pins (boot scenario LIGHT_ON)) = 1
     /\ published (run scenario scenario_pins (boot scenario LIGHT_ON))
        = [reporterPublisher MSG_TOO_LONG;
           coinCounterPublisher 1;
           reporterPublisher MSG_FINALLY_CLOSED]).
Proof. intros [_ H]. vm_compute in H. discriminate H. Qed.

(** C1, amended. The scenario ends closed with a coin count of 1, and its
    publishes are "open too long" (tenth blocked tick), "keeps open"
    (twelfth blocked tick: the handler of the stuck state also ran at the
    end of the tenth, so that is its third call), then 1 and "finally
    closed". *)
Theorem scenario_outcome (m : Machine) :
  wf m -> state m = DRAWER_CLOSED -> TIMEOUT m = TIMEOUT_LONG scenario ->
  coinCount m = 0 -> published m = [] ->
  state (run scenario scenario_pins m) = DRAWER_CLOSED
  /\ coinCount (run scenario scenario_pins m) = 1
  /\ published (run scenario scenario_pins m)
     = [reporterPublisher MSG_TOO_LONG;
        reporterPublisher MSG_KEEPS_OPEN;
        coinCounterPublisher 1;
        reporterPublisher MSG_FINALLY_CLOSED].
Proof.
  destruct m as [T ot st c tk pubs]. unfold wf.
  cbn [TIMEOUT state coinCount ticker published].
  intros [Htk _] Hst HT Hc Hp. subst tk st T c pubs.
  repeat split; vm_compute; reflexivity.
Qed.

Lemma scenario_outcome_witness :
  state (run scenario scenario_pins (boot scenario LIGHT_ON)) = DRAWER_CLOSED
  /\ coinCount (run scenario scenario_pins (boot scenario LIGHT_ON)) = 1
  /\ published (run scenario scenario_pins (boot scenario LIGHT_ON))
     = [reporterPublisher MSG_TOO_LONG;
        reporterPublisher MSG_KEEPS_OPEN;
        coinCounterPublisher 1;
        reporterPublisher MSG_FINALLY_CLOSED].
Proof.
  apply (scenario_outcome (boot scenario LIGHT_ON)).
  - apply boot_wf.
  - reflexivity.
  - reflexivity.
  - reflexivity.
  - reflexivity.
Defined.

(** ** The sketch with its own constants *)

(** C2, as stated, fails: the tick that closes the drawer just as the timer
    reaches 18 makes three publishes, both on the 180th tick of a drawer
    opened at the first and from a timer set exactly at the threshold. *)
Lemma three_publishes_in_one_tick :
  ~ (List.length (published (tick sketch LIGHT_ON (held_open sketch 179)))
     <= List.length (published (held_open sketch 179)) + 2)%nat
  /\ ~ (List.length (published (tick sketch LIGHT_ON (at_threshold 0 [])))
        <= List.length (published (at_threshold 0 [])) + 2)%nat.
Proof. split; vm_compute; lia. Qed.

(** C3, as stated, fails: after the promoting tick the timer is not zero.
    The tick is the 180th of a drawer that opened at the first and stayed
    open, the one on which the timer reaches 18. *)
Lemma promotion_timer_not_zero :
  ~ (state (tick sketch LIGHT_BLOCKED (held_open sketch 179)) = OPEN_FOR_TOO_LONG
     /\ published (tick sketch LIGHT_BLOCKED (held_open sketch 179))
        = published (held_open sketch 179) ++ [reporterPublisher MSG_TOO_LONG]
     /\ openTime (tick sketch LIGHT_BLOCKED (held_open sketch 179)) = float_zero).
Proof. intros (_ & _ & H). vm_compute in H. discriminate H. Qed.

(** C3, amended. Timeout promotion: from [DRAWER_OPEN], on the tick at
    which the timer reaches the threshold ([openTime += 0.1] makes
    [openTime >= TIMEOUT] true) while the light is blocked, the machine
    ends in [OPEN_FOR_TOO_LONG] with the short threshold active and exactly
    one publish, "open too long"; the timer is reset to zero and advanced
    once by the stuck handler called in the same tick, which leaves it at
    one step (the binary32 number nearest 0.1).  An open drawer never
    starts a tick with its timer at or above the threshold
    ([open_timer_below_threshold]), so this is the tick of every
    promotion. *)
Theorem timeout_promotion (m : Machine) :
  wf m -> state m = DRAWER_OPEN -> expires sketch m = true ->
  tick sketch LIGHT_BLOCKED m =
  {| TIMEOUT := TIMEOUT_SHORT sketch;
     openTime := advance sketch float_zero;
     state := OPEN_FOR_TOO_LONG;
     coinCount := coinCount m;
     ticker := Some (100, cb_OPEN_FOR_TOO_LONG);
     published := published m ++ [reporterPublisher MSG_TOO_LONG] |}
  /\ advance sketch float_zero = S754_finite false 13421773 (-27)
  /\ advance sketch float_zero <> float_zero.
Proof.
  intros Hwf Hst Hexp. split; [|split].
  - apply tick_open_promotes; try assumption.
    vm_compute. reflexivity.
  - vm_compute. reflexivity.
  - vm_compute. discriminate.
Qed.

(** The sketch 179 ticks after the drawer opened: the next addition gives
    18.000032. *)
Lemma timeout_promotion_witness :
  tick sketch LIGHT_BLOCKED (held_open sketch 179) =
  {| TIMEOUT := TIMEOUT_SHORT sketch;
     openTime := advance sketch float_zero;
     state := OPEN_FOR_TOO_LONG;
     coinCount := coinCount (held_open sketch 179);
     ticker := Some (100, cb_OPEN_FOR_TOO_LONG);
     published := published (held_open sketch 179)
                  ++ [reporterPublisher MSG_TOO_LONG] |}
  /\ advance sketch float_zero = S754_finite false 13421773 (-27)
  /\ advance sketch float_zero <> float_zero.
Proof.
  apply (timeout_promotion (held_open sketch 179)).
  - apply run_wf, boot_wf.
  - vm_compute. reflexivity.
  - vm_compute. reflexivity.
Defined.

(** Thirty additions of 0.1 to a [float] zero stay below 3 (the last gives
    12582909 * 2^-22, about 2.9999993); the thirty-first passes it. *)
Lemma sketch_short_accumulation :
  (forall i, (i < 30)%nat ->
     float_ge (accumulate sketch (S i) float_zero)
              (float_of_int (TIMEOUT_SHORT sketch)) = false)
  /\ float_ge (accumulate sketch 31 float_zero)
              (float_of_int (TIMEOUT_SHORT sketch)) = true
  /\ accumulate sketch 30 float_zero = S754_finite false 12582909 (-22).
Proof.
  split; [|split; vm_compute; reflexivity].
  intros i Hi.
  do 30 (destruct i as [|i]; [vm_compute; reflexivity|]).
  lia.
Qed.

Lemma stuck_idle_wf (count : Z) (pubs : list Publish) :
  int_range count -> wf (stuck_idle count pubs).
Proof. intros H. split; [reflexivity | exact H]. Qed.

(** C4, the sketch evaluated. With [TIMEOUT = 18], [TIMEOUT = 3], 0.1 per
    call and a tick every 100 ms, a drawer that opens at the first tick and
    stays open is reported stuck at tick 180, that is after 18 seconds and
    not 30 minutes, and reported again at ticks 210 and 241, that is after
    3 and 3.1 seconds and not every 5 minutes. *)
Theorem sketch_timeouts_in_ticks :
  (forall n, (n < 180)%nat -> published (held_open sketch n) = [])
  /\ (forall n, (180 <= n < 210)%nat ->
        published (held_open sketch n) = [reporterPublisher MSG_TOO_LONG])
  /\ (forall n, (210 <= n < 241)%nat ->
        published (held_open sketch n)
        = [reporterPublisher MSG_TOO_LONG; reporterPublisher MSG_KEEPS_OPEN])
  /\ published (held_open sketch 241)
     = [reporterPublisher MSG_TOO_LONG; reporterPublisher MSG_KEEPS_OPEN;
        reporterPublisher MSG_KEEPS_OPEN]
  /\ elapsed_ms 180 = 18 * 1000
  /\ elapsed_ms (210 - 180) = 3 * 1000
  /\ elapsed_ms (241 - 210) = 3100
  /\ elapsed_ms 180 < 30 * 60 * 1000
  /\ elapsed_ms (241 - 210) < 5 * 60 * 1000.
Proof.
  unfold held_open.
  split; [|split; [|split; [|split; [|repeat split]]]].
  - intros n Hn.
    rewrite (blocked_squeeze sketch (boot sketch LIGHT_ON) 0 n 179);
      [reflexivity | lia | vm_compute; reflexivity].
  - intros n Hn.
    rewrite (blocked_squeeze sketch (boot sketch LIGHT_ON) 180 n 209);
      [vm_compute; reflexivity | lia | vm_compute; reflexivity].
  - intros n Hn.
    rewrite (blocked_squeeze sketch (boot sketch LIGHT_ON) 210 n 240);
      [vm_compute; reflexivity | lia | vm_compute; reflexivity].
  - vm_compute. reflexivity.
Qed.

(** C8, the sketch evaluated. A stuck drawer whose timer was just reset,
    the light staying blocked: nothing is published during the next 30
    ticks (3 divided by 0.1), the "keeps open" message comes with the 31st,
    which resets the timer, and so again every 31 ticks; the state and the
    coin count do not change.  The machine is the one the sketch is in 210
    ticks after the drawer opened. *)
Theorem stuck_notification_period (count : Z) (pubs : list Publish) :
  int_range count ->
  (forall n, (n <= 30)%nat ->
     published (run sketch (repeat LIGHT_BLOCKED n) (stuck_idle count pubs)) = pubs)
  /\ run sketch (repeat LIGHT_BLOCKED 31) (stuck_idle count pubs)
     = stuck_idle count (pubs ++ [reporterPublisher MSG_KEEPS_OPEN])
  /\ (forall k,
        run sketch (repeat LIGHT_BLOCKED (k * 31)) (stuck_idle count pubs)
        = stuck_idle count (pubs ++ repeat (reporterPublisher MSG_KEEPS_OPEN) k))
  /\ (forall n, state (run sketch (repeat LIGHT_BLOCKED n) (stuck_idle count pubs))
                = OPEN_FOR_TOO_LONG
                /\ coinCount (run sketch (repeat LIGHT_BLOCKED n) (stuck_idle count pubs))
                   = count).
Proof.
  intros Hc.
  destruct sketch_short_accumulation as (Hlow & Hhigh & _).
  assert (Hperiod : forall ps,
             run sketch (repeat LIGHT_BLOCKED 31) (stuck_idle count ps)
             = stuck_idle count (ps ++ [reporterPublisher MSG_KEEPS_OPEN])).
  { intros ps.
    rewrite (stuck_period sketch 30 (stuck_idle count ps));
      [reflexivity | apply stuck_idle_wf, Hc | reflexivity | exact Hlow | exact Hhigh]. }
  split; [|split; [|split]].
  - intros n Hn.
    rewrite (stuck_waits_run sketch n (stuck_idle count pubs));
      [reflexivity | apply stuck_idle_wf, Hc | reflexivity |].
    intros i Hi. apply Hlow. lia.
  - apply Hperiod.
  - intros k. revert pubs. induction k as [|k IH]; intros pubs.
    + cbn. now rewrite app_nil_r.
    + change (S k * 31)%nat with (31 + k * 31)%nat.
      rewrite repeat_app, run_app, Hperiod, IH, <- app_assoc. reflexivity.
  - intros n. split.
    + apply run_blocked_stuck; [apply stuck_idle_wf, Hc | reflexivity].
    + apply run_blocked_coinCount.
Qed.

Lemma stuck_notification_period_witness :
  held_open sketch 210
  = stuck_idle 0 [reporterPublisher MSG_TOO_LONG; reporterPublisher MSG_KEEPS_OPEN]
  /\ published (run sketch (repeat LIGHT_BLOCKED 30) (held_open sketch 210))
     = published (held_open sketch 210)
  /\ published (run sketch (repeat LIGHT_BLOCKED 31) (held_open sketch 210))
     = published (held_open sketch 210) ++ [reporterPublisher MSG_KEEPS_OPEN].
Proof.
  assert (Hreach : held_open sketch 210
                   = stuck_idle 0 [reporterPublisher MSG_TOO_LONG;
                                   reporterPublisher MSG_KEEPS_OPEN])
    by (vm_compute; reflexivity).
  split; [exact Hreach|]. rewrite Hreach.
  destruct (stuck_notification_period
              0 [reporterPublisher MSG_TOO_LONG; reporterPublisher MSG_KEEPS_OPEN])
    as (Hquiet & Hfire & _).
  - unfold int_range, INT_MIN, INT_MAX. lia.
  - split; [apply Hquiet; lia | rewrite Hfire; reflexivity].
Defined.

(** ** The general statements at machines the sketch reaches *)

(** A drawer open for five ticks and then closed. *)
Lemma single_increment_per_cycle_witness :
  state (run sketch (repeat LIGHT_BLOCKED 5 ++ [LIGHT_ON]) (boot sketch LIGHT_ON))
  = DRAWER_CLOSED
  /\ coinCount (run sketch (repeat LIGHT_BLOCKED 5 ++ [LIGHT_ON]) (boot sketch LIGHT_ON))
     = coinCount (boot sketch LIGHT_ON) + 1
  /\ published (run sketch (repeat LIGHT_BLOCKED 5 ++ [LIGHT_ON]) (boot sketch LIGHT_ON))
     = published (boot sketch LIGHT_ON)
       ++ [coinCounterPublisher (coinCount (boot sketch LIGHT_ON) + 1)].
Proof.
  apply (single_increment_per_cycle sketch (boot sketch LIGHT_ON) 4).
  - apply boot_wf.
  - reflexivity.
  - vm_compute. reflexivity.
  - vm_compute. reflexivity.
  - vm_compute. reflexivity.
Defined.

(** A drawer stuck for twenty ticks and then closed. *)
Lemma recovery_from_stuck_witness :
  tick sketch LIGHT_ON (held_open sketch 200) =
  {| TIMEOUT := 18;
     openTime := float_zero;
     state := DRAWER_CLOSED;
     coinCount := coinCount (held_open sketch 200) + 1;
     ticker := Some (100, cb_DRAWER_CLOSED);
     published := published (held_open sketch 200)
                  ++ [coinCounterPublisher (coinCount (held_open sketch 200) + 1);
                      reporterPublisher MSG_FINALLY_CLOSED] |}.
Proof.
  apply (recovery_from_stuck sketch (held_open sketch 200)).
  - apply run_wf, boot_wf.
  - vm_compute. reflexivity.
  - vm_compute. reflexivity.
Defined.

(** A drawer open for three ticks, the light blocked for 300 more. *)
Lemma no_double_count_witness :
  coinCount (run sketch (repeat LIGHT_BLOCKED 300) (held_open sketch 3))
  = coinCount (held_open sketch 3)
  /\ (300%nat <> O ->
      state (run sketch (repeat LIGHT_BLOCKED 300) (held_open sketch 3))
      <> DRAWER_CLOSED)
  /\ forall (pin2 : Level) (m' : Machine),
      coinCount (tick sketch pin2 m') <> coinCount m' -> pin2 = LIGHT_ON.
Proof.
  apply (no_double_count sketch (held_open sketch 3) 300).
  - apply run_wf, boot_wf.
  - vm_compute. reflexivity.
Defined.

(** The drawer closed on the very tick its timer reaches 18. *)
Lemma timeout_precedes_closure_witness :
  tick sketch LIGHT_ON (held_open sketch 179) =
  {| TIMEOUT := 18;
     openTime := float_zero;
     state := DRAWER_CLOSED;
     coinCount := 1;
     ticker := Some (100, cb_DRAWER_CLOSED);
     published := [reporterPublisher MSG_TOO_LONG;
                   coinCounterPublisher 1;
                   reporterPublisher MSG_FINALLY_CLOSED] |}.
Proof.
  destruct (timeout_precedes_closure sketch (held_open sketch 179)) as [_ H].
  - apply run_wf, boot_wf.
  - vm_compute. reflexivity.
  - vm_compute. reflexivity.
  - vm_compute. reflexivity.
  - rewrite H. vm_compute. reflexivity.
Defined.

(** ** Further properties of the state machine *)

Lemma int_incr_wrap (z : Z) : int_incr (int_wrap z) = int_wrap (z + 1).
Proof.
  unfold int_incr, int_wrap.
  replace ((z + 2 ^ 31) mod 2 ^ 32 - 2 ^ 31 + 1 + 2 ^ 31)
    with ((z + 2 ^ 31) mod 2 ^ 32 + 1) by lia.
  rewrite Zplus_mod_idemp_l. f_equal. f_equal. lia.
Qed.

Lemma counts_app (l1 l2 : list Publish) : counts (l1 ++ l2) = counts l1 ++ counts l2.
Proof.
  induction l1 as [|[n|msg] l1 IH]; cbn; [reflexivity | f_equal; exact IH | exact IH].
Qed.

Lemma log_run_app (md : LogMode) (l1 l2 : list Publish) :
  log_run md (l1 ++ l2)
  = match log_run md l1 with
    | Some md' => log_run md' l2
    | None => None
    end.
Proof.
  revert md. induction l1 as [|p l1 IH]; intros md; cbn; [reflexivity|].
  destruct (log_step md p); [apply IH | reflexivity].
Qed.

Lemma first_counts_S (k : nat) :
  first_counts (S k) = first_counts k ++ [int_wrap (Z.of_nat (S k))].
Proof. unfold first_counts. rewrite seq_S, map_app. reflexivity. Qed.

Section Reachable.

Variable cfg : Config.

(** A tick publishes at most one count, the incremented one. *)
Lemma tick_counts (pin2 : Level) (m : Machine) :
  (counts (published (tick cfg pin2 m)) = counts (published m)
   /\ coinCount (tick cfg pin2 m) = coinCount m)
  \/ (counts (published (tick cfg pin2 m))
      = counts (published m) ++ [int_incr (coinCount m)]
      /\ coinCount (tick cfg pin2 m) = int_incr (coinCount m)).
Proof.
  destruct m as [T ot st c [[p cb]|] pubs]; [destruct cb|]; destruct pin2;
    fire_once; rewrite ?counts_app; cbn [counts]; rewrite ?app_nil_r;
    first [ left; split; reflexivity | right; split; reflexivity ].
Qed.

(** What a tick that reads [LIGHT_ON] leaves. *)
Lemma tick_light_on (m : Machine) :
  wf m ->
  state (tick cfg LIGHT_ON m) = DRAWER_CLOSED
  /\ openTime (tick cfg LIGHT_ON m) = float_zero
  /\ coinCount (tick cfg LIGHT_ON m)
     = match state m with
       | DRAWER_CLOSED => coinCount m
       | _ => int_incr (coinCount m)
       end
  /\ TIMEOUT (tick cfg LIGHT_ON m)
     = match state m with
       | DRAWER_CLOSED => TIMEOUT m
       | DRAWER_OPEN => if expires cfg m then TIMEOUT_LONG cfg else TIMEOUT m
       | OPEN_FOR_TOO_LONG => TIMEOUT_LONG cfg
       end.
Proof.
  destruct m as [T ot st c tk pubs]. unfold wf. machine_red.
  intros [Htk _]. subst tk. destruct st; fire_once; repeat split.
Qed.

Lemma tick_consistent (pin2 : Level) (m : Machine) :
  consistent cfg m -> consistent cfg (tick cfg pin2 m).
Proof.
  intros (Hwf & HT & Hz). split; [apply tick_wf, Hwf|].
  destruct m as [T ot st c tk pubs]. destruct Hwf as [Htk _].
  cbn [TIMEOUT state openTime ticker] in *. subst tk.
  destruct st, pin2; fire_once; subst T;
    (split; [reflexivity | intros H; first [reflexivity | discriminate H | auto]]).
Qed.

Lemma boot_consistent (pin2 : Level) : consistent cfg (boot cfg pin2).
Proof.
  split; [apply boot_wf|].
  destruct pin2; fire_once;
    (split; [reflexivity | intros H; first [reflexivity | discriminate H]]).
Qed.

Lemma run_consistent (pins : list Level) (m : Machine) :
  consistent cfg m -> consistent cfg (run cfg pins m).
Proof.
  revert m. induction pins as [|pin2 pins IH]; intros m H; [exact H|].
  apply IH, tick_consistent, H.
Qed.

Lemma tick_open_waits (m : Machine) :
  wf m -> state m = DRAWER_OPEN -> expires cfg m = false ->
  tick cfg LIGHT_BLOCKED m = set_openTime (advance cfg (openTime m)) m.
Proof.
  destruct m as [T ot st c tk pubs]. unfold wf. machine_red.
  intros [Htk _] Hst Hexp. subst tk st. rewrite Hexp. reflexivity.
Qed.

Lemma open_waits_run (n : nat) :
  forall m : Machine,
    wf m -> state m = DRAWER_OPEN ->
    (forall i, (i < n)%nat ->
       float_ge (accumulate cfg (S i) (openTime m)) (float_of_int (TIMEOUT m)) = false) ->
    run cfg (repeat LIGHT_BLOCKED n) m
    = set_openTime (accumulate cfg n (openTime m)) m.
Proof.
  induction n as [|n IH]; intros m Hwf Hst Hlow.
  - destruct m; reflexivity.
  - change (run cfg (repeat LIGHT_BLOCKED (S n)) m)
      with (run cfg (repeat LIGHT_BLOCKED n) (tick cfg LIGHT_BLOCKED m)).
    assert (Hexp : expires cfg m = false) by (apply (Hlow O); lia).
    rewrite (tick_open_waits m Hwf Hst Hexp), IH.
    + destruct m; reflexivity.
    + destruct m, Hwf; split; assumption.
    + destruct m; exact Hst.
    + intros i Hi. destruct m. apply (Hlow (S i)). lia.
Qed.

Lemma expires_accumulate (n : nat) (m : Machine) :
  expires cfg (set_openTime (accumulate cfg n (openTime m)) m)
  = float_ge (accumulate cfg (S n) (openTime m)) (float_of_int (TIMEOUT m)).
Proof.
  unfold expires. destruct m as [T ot st c tk pubs].
  cbn [openTime TIMEOUT set_openTime].
  f_equal. revert ot. induction n as [|n IH]; intros t; [reflexivity|].
  apply (IH (advance cfg t)).
Qed.

End Reachable.

Section Properties.

Variable cfg : Config.

Lemma tick_blocked_counts (m : Machine) :
  counts (published (tick cfg LIGHT_BLOCKED m)) = counts (published m).
Proof.
  destruct m as [T ot st c [[p cb]|] pubs]; [destruct cb|];
    fire_once; rewrite ?counts_app; cbn [counts]; rewrite ?app_nil_r; reflexivity.
Qed.

Lemma run_blocked_counts (n : nat) (m : Machine) :
  counts (published (run cfg (repeat LIGHT_BLOCKED n) m)) = counts (published m).
Proof.
  revert m. induction n as [|n IH]; intros m; [reflexivity|].
  change (run cfg (repeat LIGHT_BLOCKED (S n)) m)
    with (run cfg (repeat LIGHT_BLOCKED n) (tick cfg LIGHT_BLOCKED m)).
  rewrite IH. apply tick_blocked_counts.
Qed.

Lemma tick_counted (pin2 : Level) (m : Machine) :
  counted m -> counted (tick cfg pin2 m).
Proof.
  unfold counted. intros [Hl Hc].
  destruct (tick_counts cfg pin2 m) as [[Hp Hk]|[Hp Hk]]; rewrite Hp, Hk.
  - split; assumption.
  - rewrite length_app. cbn [List.length].
    replace (List.length (counts (published m)) + 1)%nat
      with (S (List.length (counts (published m)))) by lia.
    rewrite first_counts_S, <- Hl, Hc, int_incr_wrap.
    replace (Z.of_nat (List.length (counts (published m))) + 1)
      with (Z.of_nat (S (List.length (counts (published m))))) by lia.
    split; reflexivity.
Qed.

Lemma tick_log_ok (pin2 : Level) (m : Machine) :
  wf m -> log_ok m -> log_ok (tick cfg pin2 m).
Proof.
  destruct m as [T ot st c tk pubs]. unfold wf, log_ok.
  cbn [ticker state published]. intros [Htk _] Hlog. subst tk.
  destruct st, pin2; fire_once; rewrite <- ?app_assoc;
    rewrite ?log_run_app, ?Hlog; reflexivity.
Qed.

(** X1. The ticker helpers: while a callback is attached, another
    registration changes nothing (the first one wins, whatever period and
    callback the second asks for); after [deactivateTimer] a registration
    attaches exactly what it asks for. *)
Theorem first_registration_wins
        (t1 t2 : Z) (c1 c2 : Callback) (m : Machine) :
  activateTimerIfNotActive t2 c2 (activateTimerIfNotActive t1 c1 m)
  = activateTimerIfNotActive t1 c1 m
  /\ activateTimerIfNotActive t2 c2 (deactivateTimer (activateTimerIfNotActive t1 c1 m))
     = set_ticker (Some (t2, c2)) m
  /\ ticker (activateTimerIfNotActive t1 c1 m) <> None.
Proof.
  destruct m as [T ot st c [tk|] pubs]; cbv; repeat split; discriminate.
Qed.

(** X2. After [setup] and any sequence of ticks, whatever the readings, the
    ticker is attached with the 100 ms period to the handler of the current
    state, the counter is an [int], the active threshold is the short one
    exactly while the state is [OPEN_FOR_TOO_LONG] (the long one otherwise)
    and the timer of a closed drawer is zero. *)
Theorem reachable_consistent (pin0 : Level) (pins : list Level) :
  consistent cfg (run cfg pins (boot cfg pin0)).
Proof. apply run_consistent, boot_consistent. Qed.

(** X3. One publish per increment: after [setup] and any sequence of ticks
    the values sent to the coin counter feed are the successive values of
    the counter, 1, 2, 3, ... (as an [int] holds them), none missing and
    none repeated, and the counter holds their number. *)
Theorem counts_match_increments (pin0 : Level) (pins : list Level) :
  counted (run cfg pins (boot cfg pin0)).
Proof.
  assert (H0 : counted (boot cfg pin0)).
  { destruct pin0; fire_once; split; reflexivity. }
  revert H0. generalize (boot cfg pin0).
  induction pins as [|pin2 pins IH]; intros m H; [exact H|].
  apply IH, tick_counted, H.
Qed.

(** X4. Idle while closed: ticks of a closed drawer that read [LIGHT_ON]
    change neither the state nor the count nor the threshold, publish
    nothing and leave the ticker alone; they only hold the timer at zero. *)
Theorem closed_idle (m : Machine) (n : nat) :
  wf m -> state m = DRAWER_CLOSED ->
  run cfg (repeat LIGHT_ON (S n)) m = set_openTime float_zero m.
Proof.
  intros Hwf Hst. revert m Hwf Hst.
  assert (Hone : forall m, wf m -> state m = DRAWER_CLOSED ->
                           tick cfg LIGHT_ON m = set_openTime float_zero m).
  { intros [T ot st c tk pubs]. unfold wf. machine_red.
    intros [Htk _] Hst. subst tk st. reflexivity. }
  induction n as [|n IH]; intros m Hwf Hst.
  - apply Hone; assumption.
  - change (run cfg (repeat LIGHT_ON (S (S n))) m)
      with (run cfg (repeat LIGHT_ON (S n)) (tick cfg LIGHT_ON m)).
    rewrite (Hone m Hwf Hst), IH.
    + destruct m; reflexivity.
    + destruct m, Hwf; split; assumption.
    + destruct m; exact Hst.
Qed.

(** X5. A tick that reads [LIGHT_ON] always ends in [DRAWER_CLOSED] with
    the timer at zero and the closed handler attached; it counts a coin
    exactly when the drawer was not closed before (the counter being below
    [INT_MAX]). *)
Theorem light_on_always_closes (m : Machine) :
  wf m -> coinCount m < INT_MAX ->
  state (tick cfg LIGHT_ON m) = DRAWER_CLOSED
  /\ openTime (tick cfg LIGHT_ON m) = float_zero
  /\ ticker (tick cfg LIGHT_ON m) = Some (100, cb_DRAWER_CLOSED)
  /\ coinCount (tick cfg LIGHT_ON m)
     = match state m with
       | DRAWER_CLOSED => coinCount m
       | _ => coinCount m + 1
       end.
Proof.
  intros Hwf Hmax.
  destruct (tick_light_on cfg m Hwf) as (Hst & Hot & Hc & _).
  pose proof (tick_wf cfg LIGHT_ON m Hwf) as [Htk _].
  rewrite Hst in Htk. destruct Hwf as [_ Hr].
  repeat split; try assumption.
  rewrite Hc. destruct (state m); [reflexivity | |]; apply int_incr_exact; int_lia.
Qed.

(** X6. Every cycle counts once, timed out or not: from [DRAWER_CLOSED],
    any positive number of ticks with the light blocked followed by a tick
    that reads [LIGHT_ON] ends in [DRAWER_CLOSED] with the count raised by
    exactly one and exactly one value, the new count, sent to the coin
    counter feed (the counter being below [INT_MAX]). *)
Theorem every_cycle_counts_once (m : Machine) (n : nat) :
  wf m -> state m = DRAWER_CLOSED -> coinCount m < INT_MAX ->
  state (run cfg (repeat LIGHT_BLOCKED (S n) ++ [LIGHT_ON]) m) = DRAWER_CLOSED
  /\ coinCount (run cfg (repeat LIGHT_BLOCKED (S n) ++ [LIGHT_ON]) m) = coinCount m + 1
  /\ counts (published (run cfg (repeat LIGHT_BLOCKED (S n) ++ [LIGHT_ON]) m))
     = counts (published m) ++ [coinCount m + 1].
Proof.
  intros Hwf Hst Hmax. rewrite run_app.
  pose proof (run_wf cfg (repeat LIGHT_BLOCKED (S n)) m Hwf) as Hwf'.
  pose proof (run_blocked_coinCount cfg (S n) m) as Hc.
  pose proof (run_blocked_counts (S n) m) as Hp.
  assert (Hopen : state (run cfg (repeat LIGHT_BLOCKED (S n)) m) <> DRAWER_CLOSED).
  { replace (S n) with (n + 1)%nat by lia. rewrite repeat_app, run_app.
    apply tick_blocked_not_closed, run_wf, Hwf. }
  remember (run cfg (repeat LIGHT_BLOCKED (S n)) m) as opened eqn:Heq. clear Heq.
  change (run cfg [LIGHT_ON] opened) with (tick cfg LIGHT_ON opened).
  destruct (tick_light_on cfg opened Hwf') as (Hs & _ & Hk & _).
  assert (Hincr : int_incr (coinCount opened) = coinCount m + 1).
  { rewrite Hc. apply int_incr_exact. destruct Hwf as [_ Hr]. int_lia. }
  assert (Hk' : coinCount (tick cfg LIGHT_ON opened) = coinCount m + 1).
  { rewrite Hk. destruct (state opened); [contradiction | |]; exact Hincr. }
  split; [exact Hs|]. split; [exact Hk'|].
  destruct (tick_counts cfg LIGHT_ON opened) as [[_ Hsame]|[Hcounts _]].
  - rewrite Hsame, Hc in Hk'. lia.
  - rewrite Hcounts, Hp, Hincr. reflexivity.
Qed.

(** X7. The two feeds follow one protocol: after [setup] and any sequence
    of ticks, what was published is a sequence of counts and of episodes
    "open too long", any number of "keeps open", a count, "finally closed";
    an episode is under way (its count not yet sent) exactly when the state
    is [OPEN_FOR_TOO_LONG]. *)
Theorem publish_log_protocol (pin0 : Level) (pins : list Level) :
  log_ok (run cfg pins (boot cfg pin0)).
Proof.
  assert (H0 : log_ok (boot cfg pin0)).
  { destruct pin0; unfold log_ok; fire_once; reflexivity. }
  pose proof (boot_wf cfg pin0) as Hwf.
  revert H0 Hwf. generalize (boot cfg pin0).
  induction pins as [|pin2 pins IH]; intros m H Hwf; [exact H|].
  apply IH; [apply tick_log_ok; assumption | apply tick_wf, Hwf].
Qed.

End Properties.

Section Timers.

Variable cfg : Config.

(** X8. When an open drawer is found stuck: with the light blocked, the
    open handler only advances the timer as long as the accumulated [float]
    stays below the threshold, and the tick of the first call at which it
    reaches the threshold promotes the machine, publishes "open too long"
    once and leaves the timer one step above zero (one step from zero being
    below the short threshold). *)
Theorem open_timeout_period (m : Machine) (n : nat) :
  wf m -> state m = DRAWER_OPEN ->
  (forall i, (i < n)%nat ->
     float_ge (accumulate cfg (S i) (openTime m)) (float_of_int (TIMEOUT m)) = false) ->
  float_ge (accumulate cfg (S n) (openTime m)) (float_of_int (TIMEOUT m)) = true ->
  float_ge (advance cfg float_zero) (float_of_int (TIMEOUT_SHORT cfg)) = false ->
  (forall k, (k <= n)%nat ->
     run cfg (repeat LIGHT_BLOCKED k) m
     = set_openTime (accumulate cfg k (openTime m)) m)
  /\ run cfg (repeat LIGHT_BLOCKED (S n)) m
     = {| TIMEOUT := TIMEOUT_SHORT cfg;
          openTime := advance cfg float_zero;
          state := OPEN_FOR_TOO_LONG;
          coinCount := coinCount m;
          ticker := Some (100, cb_OPEN_FOR_TOO_LONG);
          published := published m ++ [reporterPublisher MSG_TOO_LONG] |}.
Proof.
  intros Hwf Hst Hlow Hhigh Hshort. split.
  - intros k Hk. apply open_waits_run; try assumption.
    intros i Hi. apply Hlow. lia.
  - replace (S n) with (n + 1)%nat by lia.
    rewrite repeat_app, run_app, (open_waits_run cfg n m Hwf Hst Hlow).
    change (run cfg (repeat LIGHT_BLOCKED 1) ?x) with (tick cfg LIGHT_BLOCKED x).
    rewrite tick_open_promotes.
    + destruct m; reflexivity.
    + destruct m, Hwf; split; assumption.
    + destruct m; exact Hst.
    + rewrite expires_accumulate. exact Hhigh.
    + exact Hshort.
Qed.

(** X9. The pace of the reports of a stuck drawer: with the light blocked,
    the stuck handler only advances the timer as long as the accumulated
    [float] stays below the threshold; the tick of the first call at which
    it reaches the threshold publishes "keeps open" once and puts the timer
    back to zero, the state, the count and the threshold unchanged. *)
Theorem stuck_report_period (m : Machine) (n : nat) :
  wf m -> state m = OPEN_FOR_TOO_LONG ->
  (forall i, (i < n)%nat ->
     float_ge (accumulate cfg (S i) (openTime m)) (float_of_int (TIMEOUT m)) = false) ->
  float_ge (accumulate cfg (S n) (openTime m)) (float_of_int (TIMEOUT m)) = true ->
  (forall k, (k <= n)%nat ->
     run cfg (repeat LIGHT_BLOCKED k) m
     = set_openTime (accumulate cfg k (openTime m)) m)
  /\ run cfg (repeat LIGHT_BLOCKED (S n)) m
     = {| TIMEOUT := TIMEOUT m;
          openTime := float_zero;
          state := OPEN_FOR_TOO_LONG;
          coinCount := coinCount m;
          ticker := ticker m;
          published := published m ++ [reporterPublisher MSG_KEEPS_OPEN] |}.
Proof.
  intros Hwf Hst Hlow Hhigh. split.
  - intros k Hk. apply stuck_waits_run; try assumption.
    intros i Hi. apply Hlow. lia.
  - rewrite (stuck_period cfg n m Hwf Hst Hlow Hhigh).
    destruct m as [T ot st c tk pubs]. cbn in Hst. subst st. reflexivity.
Qed.

(** X11. The variable [state] is only ever written: what a tick does to
    the threshold, the timer, the count, the ticker and the publishes is
    the same whatever [state] holds; the handler that runs is the one
    attached to the ticker. *)
Theorem state_is_write_only (s s0 : State) (pin2 : Level) (m : Machine) :
  set_state s0 (tick cfg pin2 (set_state s m)) = set_state s0 (tick cfg pin2 m).
Proof.
  destruct m as [T ot st c [[p cb]|] pubs]; [destruct cb|]; destruct pin2;
    fire_once; reflexivity.
Qed.

End Timers.

(** ** The further properties at machines the sketch reaches *)

Lemma closed_idle_witness :
  run sketch (repeat LIGHT_ON 50) (boot sketch LIGHT_ON)
  = set_openTime float_zero (boot sketch LIGHT_ON).
Proof.
  apply (closed_idle sketch (boot sketch LIGHT_ON) 49).
  - apply boot_wf.
  - reflexivity.
Defined.

Lemma light_on_always_closes_witness :
  state (tick sketch LIGHT_ON (held_open sketch 200)) = DRAWER_CLOSED
  /\ openTime (tick sketch LIGHT_ON (held_open sketch 200)) = float_zero
  /\ ticker (tick sketch LIGHT_ON (held_open sketch 200)) = Some (100, cb_DRAWER_CLOSED)
  /\ coinCount (tick sketch LIGHT_ON (held_open sketch 200))
     = match state (held_open sketch 200) with
       | DRAWER_CLOSED => coinCount (held_open sketch 200)
       | _ => coinCount (held_open sketch 200) + 1
       end.
Proof.
  apply (light_on_always_closes sketch (held_open sketch 200)).
  - apply run_wf, boot_wf.
  - vm_compute. reflexivity.
Defined.

(** A drawer left open past both timeouts, then closed. *)
Lemma every_cycle_counts_once_witness :
  state (run sketch (repeat LIGHT_BLOCKED 250 ++ [LIGHT_ON]) (boot sketch LIGHT_ON))
  = DRAWER_CLOSED
  /\ coinCount (run sketch (repeat LIGHT_BLOCKED 250 ++ [LIGHT_ON]) (boot sketch LIGHT_ON))
     = coinCount (boot sketch LIGHT_ON) + 1
  /\ counts (published (run sketch (repeat LIGHT_BLOCKED 250 ++ [LIGHT_ON])
                            (boot sketch LIGHT_ON)))
     = counts (published (boot sketch LIGHT_ON)) ++ [coinCount (boot sketch LIGHT_ON) + 1].
Proof.
  apply (every_cycle_counts_once sketch (boot sketch LIGHT_ON) 249).
  - apply boot_wf.
  - reflexivity.
  - vm_compute. reflexivity.
Defined.

(** The sketch one tick after the drawer opened: 178 more blocked ticks
    only advance the timer, the 179th (the 180th of the open drawer)
    promotes. *)
Lemma open_timeout_period_witness :
  (forall k, (k <= 178)%nat ->
     run sketch (repeat LIGHT_BLOCKED k) (held_open sketch 1)
     = set_openTime (accumulate sketch k (openTime (held_open sketch 1)))
                    (held_open sketch 1))
  /\ run sketch (repeat LIGHT_BLOCKED 179) (held_open sketch 1)
     = {| TIMEOUT := TIMEOUT_SHORT sketch;
          openTime := advance sketch float_zero;
          state := OPEN_FOR_TOO_LONG;
          coinCount := coinCount (held_open sketch 1);
          ticker := Some (100, cb_OPEN_FOR_TOO_LONG);
          published := published (held_open sketch 1)
                       ++ [reporterPublisher MSG_TOO_LONG] |}.
Proof.
  apply (open_timeout_period sketch (held_open sketch 1) 178).
  - apply run_wf, boot_wf.
  - vm_compute. reflexivity.
  - intros i Hi.
    do 178 (destruct i as [|i]; [vm_compute; reflexivity|]). lia.
  - vm_compute. reflexivity.
  - vm_compute. reflexivity.
Defined.

(** The stuck sketch with its timer at zero: the report comes with the
    31st tick. *)
Lemma stuck_report_period_witness :
  (forall k, (k <= 30)%nat ->
     run sketch (repeat LIGHT_BLOCKED k) (stuck_idle 0 [])
     = set_openTime (accumulate sketch k (openTime (stuck_idle 0 [])))
                    (stuck_idle 0 []))
  /\ run sketch (repeat LIGHT_BLOCKED 31) (stuck_idle 0 [])
     = {| TIMEOUT := TIMEOUT (stuck_idle 0 []);
          openTime := float_zero;
          state := OPEN_FOR_TOO_LONG;
          coinCount := coinCount (stuck_idle 0 []);
          ticker := ticker (stuck_idle 0 []);
          published := published (stuck_idle 0 [])
                       ++ [reporterPublisher MSG_KEEPS_OPEN] |}.
Proof.
  apply (stuck_report_period sketch (stuck_idle 0 []) 30).
  - apply stuck_idle_wf. unfold int_range, INT_MIN, INT_MAX. lia.
  - reflexivity.
  - apply sketch_short_accumulation.
  - apply sketch_short_accumulation.
Defined.

(** ** Start-up *)

Section StartupFacts.

Variable WL_CONNECTED : Z.

Lemma connectToWifi_wait_found (status : nat -> Z) (k : nat) :
  forall fuel polls : nat,
    (forall j, (j < k)%nat -> status (polls + j)%nat <> WL_CONNECTED) ->
    status (polls + k)%nat = WL_CONNECTED ->
    (k < fuel)%nat ->
    Startup.connectToWifi_wait WL_CONNECTED fuel status polls
    = Some (repeat (Startup.delay 500) k).
Proof.
  induction k as [|k IH]; intros fuel polls Hno Hyes Hfuel;
    (destruct fuel as [|fuel]; [lia|]); cbn [Startup.connectToWifi_wait].
  - rewrite Nat.add_0_r in Hyes. rewrite Hyes, Z.eqb_refl. reflexivity.
  - assert (H0 : status polls <> WL_CONNECTED).
    { specialize (Hno O ltac:(lia)). rewrite Nat.add_0_r in Hno. exact Hno. }
    apply Z.eqb_neq in H0. rewrite H0.
    rewrite (IH fuel (S polls)); [reflexivity | | | lia].
    + intros j Hj. replace (S polls + j)%nat with (polls + S j)%nat by lia.
      apply Hno. lia.
    + replace (S polls + k)%nat with (polls + S k)%nat by lia. exact Hyes.
Qed.

Lemma connectToWifi_wait_missed (status : nat -> Z) (fuel : nat) :
  forall polls : nat,
    (forall j, (j < fuel)%nat -> status (polls + j)%nat <> WL_CONNECTED) ->
    Startup.connectToWifi_wait WL_CONNECTED fuel status polls = None.
Proof.
  induction fuel as [|fuel IH]; intros polls Hno; [reflexivity|].
  cbn [Startup.connectToWifi_wait].
  assert (H0 : status polls <> WL_CONNECTED).
  { specialize (Hno O ltac:(lia)). rewrite Nat.add_0_r in Hno. exact Hno. }
  apply Z.eqb_neq in H0. rewrite H0, IH; [reflexivity|].
  intros j Hj. replace (S polls + j)%nat with (polls + S j)%nat by lia.
  apply Hno. lia.
Qed.

Lemma delayed_repeat (ms : Z) (k : nat) :
  Startup.delayed (repeat (Startup.delay ms) k) = ms * Z.of_nat k.
Proof.
  induction k as [|k IH]; [cbn; lia|].
  cbn [repeat Startup.delayed]. rewrite IH. lia.
Qed.

(** X12. [connectToWifi] blocks until the Wi-Fi reports the connection: it
    starts the Wi-Fi once and returns at the first poll that reads
    [WL_CONNECTED], having waited 500 ms for each poll before it; as long
    as no poll reads [WL_CONNECTED] it does not return. *)
Theorem connectToWifi_waits (fuel : nat) (status : nat -> Z) :
  (forall k, (k < fuel)%nat ->
     (forall j, (j < k)%nat -> status j <> WL_CONNECTED) ->
     status k = WL_CONNECTED ->
     Startup.connectToWifi WL_CONNECTED fuel status
     = Some (Startup.WiFi_begin :: repeat (Startup.delay 500) k)
     /\ Startup.delayed (Startup.WiFi_begin :: repeat (Startup.delay 500) k)
        = 500 * Z.of_nat k)
  /\ ((forall j, (j < fuel)%nat -> status j <> WL_CONNECTED) ->
      Startup.connectToWifi WL_CONNECTED fuel status = None).
Proof.
  split.
  - intros k Hfuel Hno Hyes. split.
    + unfold Startup.connectToWifi.
      rewrite (connectToWifi_wait_found status k fuel 0); auto.
    + cbn [Startup.delayed]. apply delayed_repeat.
  - intros Hno. unfold Startup.connectToWifi.
    rewrite connectToWifi_wait_missed; auto.
Qed.

(** The loop of [MQTT_connect], whatever the fuel above three. *)
Lemma MQTT_connect_closed_form (extra : nat) (connected : bool) (ret : nat -> Z) :
  Startup.MQTT_connect (extra + 3) connected ret
  = Some (if connected then (Startup.Returned, [])
          else if ret 0%nat =? 0 then (Startup.Returned, [Startup.mqtt_connect])
          else if ret 1%nat =? 0 then
            (Startup.Returned, Startup.failed_attempt ++ [Startup.mqtt_connect])
          else if ret 2%nat =? 0 then
            (Startup.Returned,
             Startup.failed_attempt ++ Startup.failed_attempt ++ [Startup.mqtt_connect])
          else
            (Startup.Halted,
             Startup.failed_attempt ++ Startup.failed_attempt ++ Startup.failed_attempt)).
Proof.
  rewrite Nat.add_comm. unfold Startup.MQTT_connect.
  destruct connected; [reflexivity|].
  cbn [Nat.add Startup.MQTT_connect_loop].
  destruct (ret 0%nat =? 0); [reflexivity|].
  change (Startup.uint8_decr 3) with 2. cbn [Z.eqb].
  destruct (ret 1%nat =? 0); [reflexivity|].
  change (Startup.uint8_decr 2) with 1. cbn [Z.eqb Pos.eqb].
  destruct (ret 2%nat =? 0); [reflexivity|].
  change (Startup.uint8_decr 1) with 0. cbn [Z.eqb]. reflexivity.
Qed.

(** X13. [MQTT_connect] tries at most three times.  When the client is
    connected it returns at once and calls nothing.  Otherwise it calls
    [mqtt.connect()] up to three times and returns right after the first
    call that gives 0; each call that fails is followed by
    [mqtt.disconnect()] and a pause of 5 s, in that order, and nothing else
    is called.  After the third failure (three disconnects, 15 s of
    pauses) it halts the sketch for the watchdog.  So it never returns
    without a connection. *)
Theorem MQTT_connect_gives_up_after_three
        (extra : nat) (connected : bool) (ret : nat -> Z) :
  (connected = true ->
   Startup.MQTT_connect (extra + 3) connected ret = Some (Startup.Returned, []))
  /\ (forall k,
        connected = false -> (k < 3)%nat ->
        (forall j, (j < k)%nat -> ret j <> 0) -> ret k = 0 ->
        Startup.MQTT_connect (extra + 3) connected ret
        = Some (Startup.Returned,
                List.concat (repeat [Startup.mqtt_connect; Startup.mqtt_disconnect;
                                Startup.delay 5000] k)
                ++ [Startup.mqtt_connect]))
  /\ (connected = false -> ret 0%nat <> 0 -> ret 1%nat <> 0 -> ret 2%nat <> 0 ->
      Startup.MQTT_connect (extra + 3) connected ret
      = Some (Startup.Halted,
              List.concat (repeat [Startup.mqtt_connect; Startup.mqtt_disconnect;
                              Startup.delay 5000] 3)))
  /\ exists (out : Startup.Outcome) (acts : list Startup.Action),
      Startup.MQTT_connect (extra + 3) connected ret = Some (out, acts)
      /\ (Startup.connects acts <= 3)%nat
      /\ (out = Startup.Returned ->
          connected = true
          \/ exists k, (k < 3)%nat /\ ret k = 0
                       /\ (forall j, (j < k)%nat -> ret j <> 0)
                       /\ Startup.connects acts = S k
                       /\ Startup.delayed acts = 5000 * Z.of_nat k)
      /\ (out = Startup.Halted ->
          connected = false
          /\ ret 0%nat <> 0 /\ ret 1%nat <> 0 /\ ret 2%nat <> 0
          /\ Startup.connects acts = 3%nat
          /\ Startup.delayed acts = 15000).
Proof.
  rewrite MQTT_connect_closed_form.
  split; [|split; [|split]].
  - intros ->. reflexivity.
  - intros k -> Hk Hno Hyes.
    destruct k as [|[|[|k]]]; [| | |lia].
    + rewrite Hyes. reflexivity.
    + pose proof (Hno O ltac:(lia)) as H0. apply Z.eqb_neq in H0.
      rewrite H0, Hyes. reflexivity.
    + pose proof (Hno O ltac:(lia)) as H0. apply Z.eqb_neq in H0.
      pose proof (Hno 1%nat ltac:(lia)) as H1. apply Z.eqb_neq in H1.
      rewrite H0, H1, Hyes. reflexivity.
  - intros -> H0 H1 H2. apply Z.eqb_neq in H0, H1, H2.
    rewrite H0, H1, H2. reflexivity.
  - destruct connected.
    { do 2 eexists. split; [reflexivity|]. cbn.
      repeat split; try lia; auto; discriminate. }
    destruct (ret 0%nat =? 0) eqn:H0.
    { do 2 eexists. split; [reflexivity|]. cbn. split; [lia|]. split; [|discriminate].
      intros _. right. exists O. apply Z.eqb_eq in H0. repeat split; auto; lia. }
    destruct (ret 1%nat =? 0) eqn:H1.
    { do 2 eexists. split; [reflexivity|]. cbn. split; [lia|]. split; [|discriminate].
      intros _. right. exists 1%nat. apply Z.eqb_eq in H1. apply Z.eqb_neq in H0.
      repeat split; auto; try lia.
      intros j Hj. replace j with O by lia. exact H0. }
    destruct (ret 2%nat =? 0) eqn:H2.
    { do 2 eexists. split; [reflexivity|]. cbn. split; [lia|]. split; [|discriminate].
      intros _. right. exists 2%nat.
      apply Z.eqb_eq in H2. apply Z.eqb_neq in H0. apply Z.eqb_neq in H1.
      repeat split; auto; try lia.
      intros j Hj. destruct j as [|[|j]]; [exact H0 | exact H1 | lia]. }
    do 2 eexists. split; [reflexivity|]. cbn. split; [lia|]. split; [discriminate|].
    intros _. apply Z.eqb_neq in H0. apply Z.eqb_neq in H1. apply Z.eqb_neq in H2.
    repeat split; auto.
Qed.

End StartupFacts.

Lemma connectToWifi_wait_only_delays (WL_CONNECTED : Z) (status : nat -> Z) (fuel : nat) :
  forall (polls : nat) (acts : list Startup.Action),
    Startup.connectToWifi_wait WL_CONNECTED fuel status polls = Some acts ->
    forall a, In a acts -> a = Startup.delay 500.
Proof.
  induction fuel as [|fuel IH]; intros polls acts Hw a Ha; cbn in Hw; [discriminate Hw|].
  destruct (status polls =? WL_CONNECTED).
  - injection Hw as <-. destruct Ha.
  - destruct (Startup.connectToWifi_wait WL_CONNECTED fuel status (S polls))
      as [rest|] eqn:Hr; [|discriminate Hw].
    injection Hw as <-. destruct Ha as [Ha|Ha]; [symmetry; exact Ha|].
    exact (IH (S polls) rest Hr a Ha).
Qed.

(** X14. [setup()] starts the state machine only behind a connection: when
    it returns, the MQTT client was connected or one of three attempts
    succeeded, the pin was configured last, and the machine is the one the
    first call of [process_DRAWER_CLOSED_state] leaves, its ticker attached;
    when [MQTT_connect] halts, the three attempts failed, the pin was never
    configured and no handler was ever attached, so no tick will run. *)
Theorem setup_starts_machine
        (WL_CONNECTED : Z) (cfg : Config) (extra : nat) (w : Startup.World)
        (out : Startup.Outcome) (acts : list Startup.Action) (m : Machine) :
  Startup.setup WL_CONNECTED cfg (extra + 3) w = Some (out, acts, m) ->
  match out with
  | Startup.Returned =>
      m = boot cfg (Startup.pin2_level w)
      /\ wf m
      /\ (exists before, acts = before ++ [Startup.pinMode_INPUT_PULLUP])
      /\ (Startup.mqtt_connected w = true
          \/ exists k, (k < 3)%nat /\ Startup.mqtt_connect_ret w k = 0)
  | Startup.Halted =>
      m = power_on cfg
      /\ ticker m = None
      /\ ~ In Startup.pinMode_INPUT_PULLUP acts
      /\ Startup.mqtt_connected w = false
      /\ Startup.mqtt_connect_ret w 0%nat <> 0
      /\ Startup.mqtt_connect_ret w 1%nat <> 0
      /\ Startup.mqtt_connect_ret w 2%nat <> 0
  end.
Proof.
  unfold Startup.setup.
  destruct (Startup.connectToWifi WL_CONNECTED (extra + 3) (Startup.wifi_status w))
    as [wifi|] eqn:Hwifi; [|discriminate].
  assert (Hnopin : ~ In Startup.pinMode_INPUT_PULLUP wifi).
  { unfold Startup.connectToWifi in Hwifi.
    destruct (Startup.connectToWifi_wait _ _ _ _) as [waits|] eqn:Hw; [|discriminate].
    injection Hwifi as <-. intros [H|H]; [discriminate H|].
    pose proof (connectToWifi_wait_only_delays _ _ _ _ _ Hw _ H) as Hd.
    discriminate Hd. }
  rewrite MQTT_connect_closed_form.
  assert (Hstart : forall mq,
             match process_DRAWER_CLOSED_state cfg (extra + 3) (Startup.pin2_level w)
                     (power_on cfg) with
             | Some m0 =>
                 Some (Startup.Returned,
                       Startup.delay 50 :: wifi ++ mq ++ [Startup.pinMode_INPUT_PULLUP], m0)
             | None => None
             end = Some (out, acts, m) ->
             out = Startup.Returned
             /\ m = boot cfg (Startup.pin2_level w)
             /\ acts = (Startup.delay 50 :: wifi ++ mq) ++ [Startup.pinMode_INPUT_PULLUP]).
  { intros mq.
    destruct (call_three cfg cb_DRAWER_CLOSED (Startup.pin2_level w) (power_on cfg))
      as [m0 H3].
    pose proof (call_fuel_more cfg extra 3 _ _ _ _ H3) as Hmore.
    cbn [call] in H3, Hmore. rewrite Hmore.
    intros H. injection H as <- <- <-.
    split; [reflexivity|]. split.
    - unfold boot, setup. rewrite H3. reflexivity.
    - cbn. rewrite <- app_assoc. reflexivity. }
  destruct (Startup.mqtt_connected w) eqn:Hc.
  { intros H. destruct (Hstart _ H) as (-> & -> & ->).
    split; [reflexivity|]. split; [apply boot_wf|]. split; [eexists; reflexivity|].
    left. reflexivity. }
  destruct (Startup.mqtt_connect_ret w 0%nat =? 0) eqn:H0.
  { intros H. destruct (Hstart _ H) as (-> & -> & ->).
    split; [reflexivity|]. split; [apply boot_wf|]. split; [eexists; reflexivity|].
    right. exists O. apply Z.eqb_eq in H0. split; [lia | exact H0]. }
  destruct (Startup.mqtt_connect_ret w 1%nat =? 0) eqn:H1.
  { intros H. destruct (Hstart _ H) as (-> & -> & ->).
    split; [reflexivity|]. split; [apply boot_wf|]. split; [eexists; reflexivity|].
    right. exists 1%nat. apply Z.eqb_eq in H1. split; [lia | exact H1]. }
  destruct (Startup.mqtt_connect_ret w 2%nat =? 0) eqn:H2.
  { intros H. destruct (Hstart _ H) as (-> & -> & ->).
    split; [reflexivity|]. split; [apply boot_wf|]. split; [eexists; reflexivity|].
    right. exists 2%nat. apply Z.eqb_eq in H2. split; [lia | exact H2]. }
  intros H. injection H as <- <- <-.
  apply Z.eqb_neq in H0, H1, H2.
  repeat split; try assumption.
  intros [H|H]; [discriminate H|].
  apply in_app_or in H. destruct H as [H|H]; [exact (Hnopin H)|].
  cbn in H. repeat (destruct H as [H|H]; [discriminate H|]). exact H.
Qed.

Lemma setup_starts_machine_witness :
  boot sketch LIGHT_ON = boot sketch LIGHT_ON
  /\ wf (boot sketch LIGHT_ON)
  /\ (exists before,
        [Startup.delay 50; Startup.WiFi_begin; Startup.delay 500; Startup.delay 500;
         Startup.mqtt_connect; Startup.mqtt_disconnect; Startup.delay 5000;
         Startup.mqtt_connect; Startup.pinMode_INPUT_PULLUP]
        = before ++ [Startup.pinMode_INPUT_PULLUP])
  /\ (false = true
      \/ exists k, (k < 3)%nat /\ (if (k =? 0)%nat then -1 else 0) = 0).
Proof.
  apply (setup_starts_machine
           3 sketch 2
           (Startup.mkWorld (fun k => if (k <? 2)%nat then 6 else 3) false
                            (fun k => if (k =? 0)%nat then -1 else 0) LIGHT_ON)
           Startup.Returned).
  vm_compute. reflexivity.
Defined.

(** ** The first sketch *)

Lemma loops_counts (pins : list Level) :
  forall (s : Primeiros.Sketch) (k : nat),
    Primeiros.fichas s = int_wrap (Z.of_nat k) ->
    Primeiros.printed s = first_counts k ->
    Primeiros.fichas (Primeiros.loops pins s)
    = int_wrap (Z.of_nat (k + Primeiros.highs pins))
    /\ Primeiros.printed (Primeiros.loops pins s)
       = first_counts (k + Primeiros.highs pins)
    /\ Primeiros.waited (Primeiros.loops pins s)
       = Primeiros.waited s + 1000 * Z.of_nat (List.length pins)
         + 2000 * Z.of_nat (Primeiros.highs pins).
Proof.
  induction pins as [|pin2 pins IH]; intros s k Hf Hp.
  - cbn. rewrite Nat.add_0_r. repeat split; try assumption. lia.
  - cbn [Primeiros.loops Primeiros.highs List.length].
    destruct pin2.
    + destruct (IH (Primeiros.loop LOW s) k) as (H1 & H2 & H3);
        [exact Hf | exact Hp |].
      rewrite H1, H2, H3. cbn [Primeiros.loop Primeiros.waited].
      repeat split. lia.
    + destruct (IH (Primeiros.loop HIGH s) (S k)) as (H1 & H2 & H3).
      * cbn [Primeiros.loop Primeiros.fichas]. rewrite Hf, int_incr_wrap.
        f_equal. lia.
      * cbn [Primeiros.loop Primeiros.printed Primeiros.fichas].
        rewrite first_counts_S, Hp, Hf, int_incr_wrap.
        do 3 f_equal. lia.
      * rewrite H1, H2, H3. cbn [Primeiros.loop Primeiros.waited].
        replace (S k + Primeiros.highs pins)%nat
          with (k + S (Primeiros.highs pins))%nat by lia.
        repeat split. lia.
Qed.

(** X15. The first sketch counts samples, not coins: after any number of
    passes of [loop()] from the start, [fichas] is the number of passes
    that read [HIGH] (as an [int] holds it), the serial port received 1, 2,
    3, ... up to that number, and the passes took 1 s each plus 2 s for
    each [HIGH]; so a lever held for [n] passes is counted [n] times. *)
Theorem fichas_counts_samples (pins : list Level) (n : nat) :
  Primeiros.fichas (Primeiros.loops pins Primeiros.start)
  = int_wrap (Z.of_nat (Primeiros.highs pins))
  /\ Primeiros.printed (Primeiros.loops pins Primeiros.start)
     = first_counts (Primeiros.highs pins)
  /\ Primeiros.waited (Primeiros.loops pins Primeiros.start)
     = 1000 * Z.of_nat (List.length pins) + 2000 * Z.of_nat (Primeiros.highs pins)
  /\ Primeiros.fichas (Primeiros.loops (repeat HIGH n) Primeiros.start)
     = int_wrap (Z.of_nat n).
Proof.
  assert (Hall : forall ps,
             Primeiros.fichas (Primeiros.loops ps Primeiros.start)
             = int_wrap (Z.of_nat (Primeiros.highs ps))
             /\ Primeiros.printed (Primeiros.loops ps Primeiros.start)
                = first_counts (Primeiros.highs ps)
             /\ Primeiros.waited (Primeiros.loops ps Primeiros.start)
                = 1000 * Z.of_nat (List.length ps)
                  + 2000 * Z.of_nat (Primeiros.highs ps)).
  { intros ps.
    destruct (loops_counts ps Primeiros.start O) as (H1 & H2 & H3);
      [reflexivity | reflexivity |].
    cbn [Nat.add] in H1, H2. cbn [Primeiros.waited Primeiros.start] in H3.
    repeat split; first [assumption | lia]. }
  destruct (Hall pins) as (H1 & H2 & H3).
  repeat split; try assumption.
  destruct (Hall (repeat HIGH n)) as (Hn & _). rewrite Hn.
  do 2 f_equal. clear. induction n as [|n IH]; [reflexivity|].
  cbn. f_equal. exact IH.
Qed.
